(** * TribalLandChecker: a shallow embedding of [tribal_land_checker.py]

    The development follows the class [TribalLandChecker]:
    - [Strip]: Python's [str.strip] on the address text;
    - [Checker]: the checker object ([tribal_boundaries], [geocoding_cache]),
      the outside world it talks to (the two geocoding services, the boundary
      files, the clock) and the methods [load_tribal_boundaries],
      [download_tribal_boundaries], [geocode_address], [check_tribal_land]
      and the row loop of [process_excel];
    - [Planar]: an exact model of the containment predicate on polygons with
      integer coordinates, used where a statement depends on the edge
      convention of [geometry.contains];
    - [Scenario]: concrete services, boundary files and sheets;
    - [Columns] and [Driver]: the choice of the address column and [main];
    - [Raw]: [check_tribal_land] and the row loop once more, on coordinate
      values that need not be numbers and boundary rows that need not have
      a geometry, with every place where they raise; [RawCases] has the
      concrete inputs for it.

    The facts come after the definitions: [strip], the resolver, the
    classifier, the edge convention, the boundary store, the columns, the
    row loop, and the runs on concrete inputs. *)

From Stdlib Require Import ZArith List String Ascii Lia Permutation Bool DecimalString.
From stdpp Require Import base gmap strings list fin_maps.

Open Scope string_scope.
Open Scope list_scope.

(* ===================================================================== *)
(** ** Python's [str.strip] *)
(* ===================================================================== *)

Module Strip.

(** [str.isspace] on one character. A character is a Unicode code point;
    [ascii] covers the code points below 256, where the whitespace ones are
    U+0009..U+000D, U+001C..U+001F, U+0020, U+0085 and U+00A0. *)
Definition isspace (c : ascii) : bool :=
  let n := N_of_ascii c in
  ((9 <=? n) && (n <=? 13) || (28 <=? n) && (n <=? 32) || (n =? 133) || (n =? 160))%N.

(** Drop the leading whitespace. *)
Fixpoint lstrip (s : string) : string :=
  match s with
  | EmptyString => EmptyString
  | String c s' => if isspace c then lstrip s' else s
  end.

(** Drop the trailing whitespace: a character is kept when something is
    kept after it or when it is not whitespace itself. *)
Fixpoint rstrip (s : string) : string :=
  match s with
  | EmptyString => EmptyString
  | String c s' =>
      match rstrip s' with
      | EmptyString => if isspace c then EmptyString else String c EmptyString
      | r => String c r
      end
  end.

(** [s.strip()]: both ends. *)
Definition strip (s : string) : string := rstrip (lstrip s).

(** A string that [strip] leaves alone. *)
Definition trimmed (s : string) : Prop := strip s = s.

(** No whitespace in front: empty, or the first character is not one. *)
Definition clean_front (s : string) : Prop :=
  match s with
  | EmptyString => True
  | String c _ => isspace c = false
  end.

End Strip.

(* ===================================================================== *)
(** ** The checker object and the world around it *)
(* ===================================================================== *)

Module Checker.
Import Strip.

Section Model.

(** [num] stands for the values a coordinate is made of: the floats that
    [float(...)] makes of the primary service's answer, and the values the
    fallback service sends, which the code takes as they are; [other] for
    the cell values of a sheet that are neither missing nor text (numbers,
    dates); [G] for what the geometry column of the boundary file holds.
    Module [Raw] below follows the values that are not numbers and the
    rows that have no geometry to the places where the code raises on
    them. *)
Context {num other G : Type}.

(** A value handed to [geocode_address]. *)
Inductive pyobj :=
| PyStr (s : string)
| PyOther (o : other).

(** A cell of the address column: [Missing] is what [pd.isna] accepts. *)
Inductive cell :=
| Missing
| Value (v : pyobj).

(** [(latitude, longitude)], the tuple [geocode_address] returns. *)
Definition Coordinate : Type := num * num.

(** [shapely.geometry.Point(x, y)]. *)
Record Point := { x : num; y : num }.

Record Boundary := {
  GEOID : option string;
  NAME : option string;
  geometry : G
}.

(** A [GeoDataFrame]: its reference system (if it has one) and its rows. *)
Record GeoDataFrame := {
  crs : option string;
  features : list Boundary
}.

(** What the primary service answers: [float(data[0]['lat'])] and
    [float(data[0]['lon'])] of one result, [None] where the key is absent
    or the text is not a number (the conversion raises). *)
Record nominatim_hit := { hit_lat : option num; hit_lon : option num }.

Inductive nominatim_response :=
| NominatimRaises
| NominatimJson (data : list nominatim_hit).

(** One entry of [result.addressMatches]: [coordinates.y] and
    [coordinates.x] as they are in the answer, not converted; [None] where
    the key is absent (the indexing raises). *)
Record census_match := { coordinates_y : option num; coordinates_x : option num }.

(** [CensusJson l]: the decoded answer, [l] being
    [data.get('result', {}).get('addressMatches')] (empty when absent). *)
Inductive census_response :=
| CensusRaises
| CensusJson (addressMatches : list census_match).

(** What the program does to the outside, in order. *)
Inductive event :=
| GetNominatim (q : string)
| GetCensus (q : string)
| ReadFile (source : string)
| Sleep (seconds : nat).

(** The outside world. The services and the file reader are asked at a
    time (the number of events so far), so that the same request may be
    answered differently later in the run. *)
Record outside := {
  py_str : other -> string;
  contains : G -> Point -> bool;
  reproject : string -> string -> G -> G;
  nominatim : nat -> string -> nominatim_response;
  census : nat -> string -> census_response;
  read_file : nat -> string -> option GeoDataFrame
}.

(** The checker ([self]) together with the trace of what it did. *)
Record world := {
  tribal_boundaries : option GeoDataFrame;
  geocoding_cache : gmap string (option Coordinate);
  trace : list event
}.

(** [TribalLandChecker()] with no boundaries path. *)
Definition init : world :=
  {| tribal_boundaries := None; geocoding_cache := ∅; trace := [] |}.

Inductive exn :=
| RequestError
| ParseError
| ReadError
| CrsError.

Inductive outcome (A : Type) :=
| Return (a : A)
| Raise (e : exn).
Arguments Return {A} a.
Arguments Raise {A} e.

(** Computations that read and change the world and may raise. What was
    done before an exception stays done. *)
Definition M (A : Type) : Type := world -> outcome A * world.

#[local] Instance M_ret : MRet M := fun A a w => (Return a, w).

#[local] Instance M_bind : MBind M := fun A B f m w =>
  match m w with
  | (Return a, w') => f a w'
  | (Raise e, w') => (Raise e, w')
  end.

Definition raise {A} (e : exn) : M A := fun w => (Raise e, w).

(** [try: body / except Exception: handler]. *)
Definition try_except {A} (body : M A) (handler : exn -> M A) : M A := fun w =>
  match body w with
  | (Return a, w') => (Return a, w')
  | (Raise e, w') => handler e w'
  end.

Definition gets {A} (f : world -> A) : M A := fun w => (Return (f w), w).

Definition emit (e : event) (w : world) : world :=
  {| tribal_boundaries := tribal_boundaries w;
     geocoding_cache := geocoding_cache w;
     trace := trace w ++ [e] |}.

(** [self.tribal_boundaries = gdf]. *)
Definition set_tribal_boundaries (gdf : GeoDataFrame) : M unit := fun w =>
  (Return tt,
   {| tribal_boundaries := Some gdf;
      geocoding_cache := geocoding_cache w;
      trace := trace w |}).

(** [self.geocoding_cache[key] = result]. *)
Definition cache_store (key : string) (result : option Coordinate) : M unit := fun w =>
  (Return tt,
   {| tribal_boundaries := tribal_boundaries w;
      geocoding_cache := <[key := result]> (geocoding_cache w);
      trace := trace w |}).

(** [time.sleep(seconds)]. *)
Definition sleep (seconds : nat) : M unit := fun w => (Return tt, emit (Sleep seconds) w).

(** A subscript or conversion that raises when the value is not there. *)
Definition subscript {A} (v : option A) : M A :=
  match v with
  | Some a => mret a
  | None => raise ParseError
  end.

Variable E : outside.

(** [str(address)]. *)
Definition str (address : pyobj) : string :=
  match address with
  | PyStr s => s
  | PyOther o => py_str E o
  end.

(** [address in cache] and [cache[address]] in one: the keys are all of
    type [str], and no other value equals a [str]. *)
Definition cache_get (address : pyobj) (cache : gmap string (option Coordinate))
  : option (option Coordinate) :=
  match address with
  | PyStr s => cache !! s
  | PyOther _ => None
  end.

(** [requests.get] to the primary service, [raise_for_status] and
    [response.json()]. *)
Definition get_nominatim (q : string) : M (list nominatim_hit) := fun w =>
  match nominatim E (length (trace w)) q with
  | NominatimJson data => (Return data, emit (GetNominatim q) w)
  | NominatimRaises => (Raise RequestError, emit (GetNominatim q) w)
  end.

(** The same for the fallback service, down to [addressMatches]. *)
Definition get_census (q : string) : M (list census_match) := fun w =>
  match census E (length (trace w)) q with
  | CensusJson l => (Return l, emit (GetCensus q) w)
  | CensusRaises => (Raise RequestError, emit (GetCensus q) w)
  end.

(** [gpd.read_file(source)]. *)
Definition gpd_read_file (source : string) : M GeoDataFrame := fun w =>
  match read_file E (length (trace w)) source with
  | Some gdf => (Return gdf, emit (ReadFile source) w)
  | None => (Raise ReadError, emit (ReadFile source) w)
  end.

(** [gdf.to_crs(target)]: a frame without a reference system cannot be
    transformed. *)
Definition to_crs (target : string) (gdf : GeoDataFrame) : M GeoDataFrame :=
  match crs gdf with
  | None => raise CrsError
  | Some source =>
      mret {| crs := Some target;
              features := map (fun b => {| GEOID := GEOID b; NAME := NAME b;
                                           geometry := reproject E source target (geometry b) |})
                              (features gdf) |}
  end.

Definition EPSG_4326 : string := "EPSG:4326".

Definition tiger_url : string :=
  "https://www2.census.gov/geo/tiger/TIGER2023/AIANNH/tl_2023_us_aiannh.zip".

(** [download_tribal_boundaries]: read the archive, keep the rows whose
    [GEOID] is not null. The [except] branch logs and raises again. *)
Definition download_tribal_boundaries : M GeoDataFrame :=
  gdf ← gpd_read_file tiger_url;
  mret {| crs := crs gdf;
          features := List.filter (fun b => bool_decide (is_Some (GEOID b))) (features gdf) |}.

(** [load_tribal_boundaries]: read, store, and reproject unless the frame
    is in EPSG:4326 already. The [except] branch logs and raises again. *)
Definition load_tribal_boundaries (path : string) : M unit :=
  gdf ← gpd_read_file path;
  set_tribal_boundaries gdf;;
  if bool_decide (crs gdf = Some EPSG_4326) then mret tt
  else
    projected ← to_crs EPSG_4326 gdf;
    set_tribal_boundaries projected.

(** [geocode_address]. *)
Definition geocode_address (address : pyobj) : M (option Coordinate) :=
  cache ← gets geocoding_cache;
  match cache_get address cache with
  | Some cached => mret cached
  | None =>
      let address := strip (str address) in
      try_except
        (data ← get_nominatim address;
         match data with
         | hit :: _ =>
             lat ← subscript (hit_lat hit);
             lon ← subscript (hit_lon hit);
             let result := (lat, lon) in
             cache_store address (Some result);;
             sleep 1;;
             mret (Some result)
         | [] =>
             matches ← get_census address;
             match matches with
             | match_ :: _ =>
                 lat ← subscript (coordinates_y match_);
                 lon ← subscript (coordinates_x match_);
                 let result := (lat, lon) in
                 cache_store address (Some result);;
                 mret (Some result)
             | [] =>
                 cache_store address None;;
                 mret None
             end
         end)
        (fun _ =>
           cache_store address None;;
           mret None)
  end.

(** The loop of [check_tribal_land]: the index at which it returns [True],
    or [None] when it runs off the end. *)
Fixpoint iterrows_within (point : Point) (idx : nat) (l : list Boundary) : option nat :=
  match l with
  | [] => None
  | boundary :: rest =>
      if contains E (geometry boundary) point then Some idx
      else iterrows_within point (S idx) rest
  end.

(** [check_tribal_land]. *)
Definition check_tribal_land (lat lon : num) : M bool :=
  loaded ← gets tribal_boundaries;
  boundaries ← match loaded with
               | None =>
                   gdf ← download_tribal_boundaries;
                   set_tribal_boundaries gdf;;
                   mret gdf
               | Some gdf => mret gdf
               end;
  let point := {| x := lon; y := lat |} in
  mret (bool_decide (is_Some (iterrows_within point 0 (features boundaries)))).

(** One row of the frame of [process_excel]: the address cell and the
    three columns the method adds. *)
Record row := {
  address_cell : cell;
  Latitude : option num;
  Longitude : option num;
  On_Tribal_Land : option string
}.

Definition set_Latitude (lat : num) (r : row) : row :=
  {| address_cell := address_cell r; Latitude := Some lat;
     Longitude := Longitude r; On_Tribal_Land := On_Tribal_Land r |}.

Definition set_Longitude (lon : num) (r : row) : row :=
  {| address_cell := address_cell r; Latitude := Latitude r;
     Longitude := Some lon; On_Tribal_Land := On_Tribal_Land r |}.

Definition set_On_Tribal_Land (label : string) (r : row) : row :=
  {| address_cell := address_cell r; Latitude := Latitude r;
     Longitude := Longitude r; On_Tribal_Land := Some label |}.

(** The frame right after [df['Latitude'] = None], [df['Longitude'] = None]
    and [df['On_Tribal_Land'] = None]. *)
Definition blank_row (address : cell) : row :=
  {| address_cell := address; Latitude := None; Longitude := None;
     On_Tribal_Land := None |}.

(** The body of the row loop; [alter f idx df] is [df.at[idx, column] = v]. *)
Definition process_row (idx : nat) (address : cell) (df : list row) : M (list row) :=
  match address with
  | Missing => mret (alter (set_On_Tribal_Land "No Data") idx df)
  | Value address =>
      coords ← geocode_address address;
      match coords with
      | Some (lat, lon) =>
          let df := alter (set_Latitude lat) idx df in
          let df := alter (set_Longitude lon) idx df in
          on_tribal ← check_tribal_land lat lon;
          mret (alter (set_On_Tribal_Land (if (on_tribal : bool) then "Yes" else "No")) idx df)
      | None => mret (alter (set_On_Tribal_Land "Could Not Geocode") idx df)
      end
  end.

(** [for idx, row in df.iterrows()], reading [row[address_column]]: the
    index labels count from 0. *)
Fixpoint iterrows_from (idx : nat) (df : list row) : list (nat * cell) :=
  match df with
  | [] => []
  | r :: rest => (idx, address_cell r) :: iterrows_from (S idx) rest
  end.

Definition iterrows (df : list row) : list (nat * cell) := iterrows_from 0 df.

Fixpoint for_each_row (todo : list (nat * cell)) (df : list row) : M (list row) :=
  match todo with
  | [] => mret df
  | (idx, address) :: rest =>
      df' ← process_row idx address df;
      for_each_row rest df'
  end.

(** [process_excel] from the frame read off the sheet (its address column)
    to the frame it returns. *)
Definition process_excel (sheet : list cell) : M (list row) :=
  let df := map blank_row sheet in
  for_each_row (iterrows df) df.

(** [(df['On_Tribal_Land'] == label).sum()]. *)
Definition count_label (label : string) (df : list row) : nat :=
  length (List.filter (fun r => bool_decide (On_Tribal_Land r = Some label)) df).

(** *** Vocabulary of the statements *)

(** Requests to the two geocoding services among some events. *)
Definition to_nominatim (e : event) : bool :=
  match e with GetNominatim _ => true | _ => false end.

Definition to_census (e : event) : bool :=
  match e with GetCensus _ => true | _ => false end.

(** Every key of the cache is a string that [strip] leaves alone. *)
Definition keys_trimmed (cache : gmap string (option Coordinate)) : Prop :=
  forall k, is_Some (cache !! k) -> trimmed k.

(** The checker after [geocode_address] was called on each address in turn
    (the method never raises, see [geocode_address_returns]). *)
Fixpoint resolve_each (addresses : list pyobj) (w : world) : world :=
  match addresses with
  | [] => w
  | a :: rest => resolve_each rest (snd (geocode_address a w))
  end.

(** A cache miss at time [t] for the cleaned address [q], read off
    [geocode_address] as a table of what the services say: the value
    returned (and cached) and the events caused
    ([geocode_address_miss] shows the method does just this). *)
Definition miss_answer (t : nat) (q : string) : option Coordinate * list event :=
  match nominatim E t q with
  | NominatimRaises => (None, [GetNominatim q])
  | NominatimJson (hit :: _) =>
      match hit_lat hit, hit_lon hit with
      | Some lat, Some lon => (Some (lat, lon), [GetNominatim q; Sleep 1])
      | _, _ => (None, [GetNominatim q])
      end
  | NominatimJson [] =>
      (match census E (S t) q with
       | CensusJson (match_ :: _) =>
           match coordinates_y match_, coordinates_x match_ with
           | Some lat, Some lon => Some (lat, lon)
           | _, _ => None
           end
       | _ => None
       end,
       [GetNominatim q; GetCensus q])
  end.

(** The boundaries are there when needed: loaded, or the archive can be
    read whenever it is asked for. *)
Definition boundaries_available (w : world) : Prop :=
  is_Some (tribal_boundaries w) \/ forall t, is_Some (read_file E t tiger_url).

(** What a row of the returned frame may look like, given its cell. *)
Definition classified (r : row) : Prop :=
  match address_cell r with
  | Missing =>
      On_Tribal_Land r = Some "No Data" /\ Latitude r = None /\ Longitude r = None
  | Value _ =>
      ((On_Tribal_Land r = Some "Yes" \/ On_Tribal_Land r = Some "No")
       /\ is_Some (Latitude r) /\ is_Some (Longitude r))
      \/ (On_Tribal_Land r = Some "Could Not Geocode"
          /\ Latitude r = None /\ Longitude r = None)
  end.

End Model.

Arguments pyobj : clear implicits.
Arguments cell : clear implicits.
Arguments Point : clear implicits.
Arguments Boundary : clear implicits.
Arguments GeoDataFrame : clear implicits.
Arguments nominatim_hit : clear implicits.
Arguments nominatim_response : clear implicits.
Arguments census_match : clear implicits.
Arguments census_response : clear implicits.
Arguments outside : clear implicits.
Arguments world : clear implicits.
Arguments row : clear implicits.
Arguments Return {A} a.
Arguments Raise {A} e.

End Checker.

(* ===================================================================== *)
(** ** Containment on polygons with whole-number coordinates *)
(* ===================================================================== *)

(** [geometry.contains(point)] is shapely's predicate: a geometry contains
    a point when the point lies in its interior; a point of its boundary
    line is not contained. This module computes that predicate exactly for
    polygons (a shell and holes, each a closed ring of vertices) whose
    coordinates are whole numbers of degrees. *)
Module Planar.

Open Scope Z_scope.

(** [(x, y)], that is (longitude, latitude). *)
Definition vertex : Type := Z * Z.

Record Polygon := { shell : list vertex; holes : list (list vertex) }.

Inductive location := Interior | OnBoundary | Exterior.

(** The sides of a ring, the last vertex joined to the first. *)
Definition edges (ring : list vertex) : list (vertex * vertex) :=
  match ring with
  | [] => []
  | first :: rest => combine ring (rest ++ [first])
  end.

(** Twice the signed area of the triangle [a b p]. *)
Definition cross (a b p : vertex) : Z :=
  (fst b - fst a) * (snd p - snd a) - (snd b - snd a) * (fst p - fst a).

Definition on_segment (p : vertex) (e : vertex * vertex) : bool :=
  let (a, b) := e in
  (cross a b p =? 0)
  && (Z.min (fst a) (fst b) <=? fst p) && (fst p <=? Z.max (fst a) (fst b))
  && (Z.min (snd a) (snd b) <=? snd p) && (snd p <=? Z.max (snd a) (snd b)).

(** Does the ray from [p] towards larger [x] cross the side? *)
Definition crosses_ray (p : vertex) (e : vertex * vertex) : bool :=
  let (a, b) := e in
  if (snd a <=? snd p) && (snd p <? snd b) then 0 <? cross a b p
  else if (snd b <=? snd p) && (snd p <? snd a) then cross a b p <? 0
  else false.

Definition locate_ring (p : vertex) (ring : list vertex) : location :=
  if existsb (on_segment p) (edges ring) then OnBoundary
  else if Nat.odd (length (List.filter (crosses_ray p) (edges ring))) then Interior
  else Exterior.

Definition is_interior (l : location) : bool :=
  match l with Interior => true | _ => false end.

Definition is_boundary (l : location) : bool :=
  match l with OnBoundary => true | _ => false end.

Definition locate (p : vertex) (poly : Polygon) : location :=
  match locate_ring p (shell poly) with
  | Interior =>
      if existsb (fun h => is_boundary (locate_ring p h)) (holes poly) then OnBoundary
      else if existsb (fun h => is_interior (locate_ring p h)) (holes poly) then Exterior
      else Interior
  | l => l
  end.

Definition contains (poly : Polygon) (point : Checker.Point Z) : bool :=
  is_interior (locate (Checker.x point, Checker.y point) poly).



(** A whole number of degrees of longitude and of latitude. On such
    values the arithmetic of this module is that of double-precision
    numbers: every difference and product stays far below 2^53. *)
Definition in_range (v : vertex) : Prop :=
  -180 <= fst v <= 180 /\ -90 <= snd v <= 90.


End Planar.

(* ===================================================================== *)
(** ** Concrete runs *)
(* ===================================================================== *)

Module Scenario.
Import Checker.

Open Scope Z_scope.

(** [str] of a whole number. *)
Definition decimal (n : Z) : string := NilZero.string_of_int (Z.to_int n).

(** A square around (-110, 35) (longitude, latitude). *)
Definition square : Planar.Polygon :=
  {| Planar.shell := [(-115, 30); (-105, 30); (-105, 40); (-115, 40)];
     Planar.holes := [] |}.

Definition reservation : Boundary Planar.Polygon :=
  {| GEOID := Some "2430"; NAME := Some "Test Reservation"; geometry := square |}.

Definition store : GeoDataFrame Planar.Polygon :=
  {| crs := Some EPSG_4326; features := [reservation] |}.

(** The archive as published: in NAD83, one row without a [GEOID]. *)
Definition archive : GeoDataFrame Planar.Polygon :=
  {| crs := Some "EPSG:4269";
     features := [reservation;
                  {| GEOID := None; NAME := Some "Unnumbered"; geometry := square |}] |}.

(** A reprojection that is visible: it shifts every vertex by one degree. *)
Definition shift (g : Planar.Polygon) : Planar.Polygon :=
  {| Planar.shell := map (fun v => (fst v + 1, snd v)) (Planar.shell g);
     Planar.holes := map (map (fun v => (fst v + 1, snd v))) (Planar.holes g) |}.

Definition hit : nominatim_hit Z := {| hit_lat := Some 35; hit_lon := Some (-110) |}.

Definition address_match : census_match Z :=
  {| coordinates_y := Some 35; coordinates_x := Some (-110) |}.

(** Neither service finds anything; the archive can be read. *)
Definition unknown_everywhere : outside Z Z Planar.Polygon :=
  {| py_str := decimal;
     contains := Planar.contains;
     reproject := fun _ _ => shift;
     nominatim := fun _ _ => NominatimJson [];
     census := fun _ _ => CensusJson [];
     read_file := fun _ _ => Some archive |}.

(** The primary service finds nothing, the fallback finds the address. *)
Definition fallback_finds : outside Z Z Planar.Polygon :=
  {| py_str := decimal;
     contains := Planar.contains;
     reproject := fun _ _ => shift;
     nominatim := fun _ _ => NominatimJson [];
     census := fun _ _ => CensusJson [address_match];
     read_file := fun _ _ => Some archive |}.

(** The primary service finds the address. *)
Definition primary_finds : outside Z Z Planar.Polygon :=
  {| py_str := decimal;
     contains := Planar.contains;
     reproject := fun _ _ => shift;
     nominatim := fun _ _ => NominatimJson [hit];
     census := fun _ _ => CensusRaises;
     read_file := fun _ _ => Some archive |}.

(** The primary service cannot be reached. *)
Definition primary_down : outside Z Z Planar.Polygon :=
  {| py_str := decimal;
     contains := Planar.contains;
     reproject := fun _ _ => shift;
     nominatim := fun _ _ => NominatimRaises;
     census := fun _ _ => CensusJson [address_match];
     read_file := fun _ _ => Some archive |}.

(** The primary service finds nothing at first and the address later on
    (from the third event of the run); the fallback finds nothing. *)
Definition found_later : outside Z Z Planar.Polygon :=
  {| py_str := decimal;
     contains := Planar.contains;
     reproject := fun _ _ => shift;
     nominatim := fun t _ => if (t <? 2)%nat then NominatimJson [] else NominatimJson [hit];
     census := fun _ _ => CensusJson [];
     read_file := fun _ _ => Some archive |}.

(** A checker whose boundaries are loaded. *)
Definition loaded : world Z Planar.Polygon :=
  {| tribal_boundaries := Some store; geocoding_cache := ∅; trace := [] |}.

End Scenario.


(* ===================================================================== *)
(** ** Choosing the address column *)
(* ===================================================================== *)

(** The first part of [process_excel]: the column labels of the frame are
    searched for a name that looks like an address column; when none does,
    the operator is asked for a column number. *)
Module Columns.

(** [str.lower] on one character (code points below 256): the letters
    A..Z and U+00C0..U+00DE without the multiplication sign U+00D7. *)
Definition lower_char (c : ascii) : ascii :=
  let n := N_of_ascii c in
  if ((65 <=? n) && (n <=? 90) || (192 <=? n) && (n <=? 222) && negb (n =? 215))%N
  then ascii_of_N (n + 32)
  else c.

Fixpoint lower (s : string) : string :=
  match s with
  | EmptyString => EmptyString
  | String c s' => String (lower_char c) (lower s')
  end.

(** [s.startswith(prefix)]. *)
Fixpoint startswith (s prefix : string) {struct prefix} : bool :=
  match prefix with
  | EmptyString => true
  | String p prefix' =>
      match s with
      | EmptyString => false
      | String c s' => Ascii.eqb c p && startswith s' prefix'
      end
  end.

(** [needle in hay] on strings. *)
Fixpoint py_in (needle hay : string) : bool :=
  startswith hay needle
  || match hay with
     | EmptyString => false
     | String _ rest => py_in needle rest
     end.

Definition possible_names : list string :=
  ["address"; "Address"; "ADDRESS"; "Street Address";
   "Property Address"; "Full Address"; "Location"].

(** [any(name.lower() in col.lower() for name in possible_names)]. *)
Definition looks_like_address (col : string) : bool :=
  existsb (fun name => py_in (lower name) (lower col)) possible_names.

(** A column label: text, or something else (a number, a date) on which
    [.lower()] raises. *)
Inductive label (other : Type) :=
| Text (s : string)
| NotText (o : other).
Arguments Text {other} s.
Arguments NotText {other} o.

Inductive error :=
| AttributeError
| ValueError
| IndexError.

(** The loop over [df.columns] with its [break]: the column found, [None]
    when the loop ends without one, or the exception of [col.lower()]. *)
Fixpoint auto_detect {other} (columns : list (label other)) : error + option (label other) :=
  match columns with
  | [] => inr None
  | Text col :: rest =>
      if looks_like_address col then inr (Some (Text col)) else auto_detect rest
  | NotText _ :: _ => inl AttributeError
  end.

(** [df.columns[idx]]: a negative index counts from the end. *)
Definition getitem {other} (columns : list (label other)) (idx : Z) : error + label other :=
  let n := Z.of_nat (length columns) in
  let i := (if idx <? 0 then idx + n else idx)%Z in
  if ((0 <=? i) && (i <? n))%Z then
    match columns !! Z.to_nat i with
    | Some c => inr c
    | None => inl IndexError
    end
  else inl IndexError.

(** Lines 220-237 of [process_excel]. [reply] is [int(input(...))], [None]
    when what was typed is not a whole number. *)
Definition choose_address_column {other} (address_column : option (label other))
    (columns : list (label other)) (reply : option Z) : error + label other :=
  match address_column with
  | Some c => inr c
  | None =>
      match auto_detect columns with
      | inl e => inl e
      | inr (Some c) => inr c
      | inr None =>
          match reply with
          | None => inl ValueError
          | Some idx => getitem columns idx
          end
      end
  end.

(** [needle] occurs in [hay]. *)
Definition occurs (needle hay : string) : Prop :=
  exists before after, hay = String.append before (String.append needle after).

End Columns.

(* ===================================================================== *)
(** ** Creating the checker; counting what a run did *)
(* ===================================================================== *)

Module Driver.
Import Strip Checker.

Section Model.
Context {num other G : Type}.
Variable E : outside num other G.

(** [TribalLandChecker(tribal_boundaries_path)]: an empty path is falsy,
    like [None]. An exception of the load leaves the constructor. *)
Definition TribalLandChecker (tribal_boundaries_path : option string)
  : outcome unit * world num G :=
  match tribal_boundaries_path with
  | None => (Return tt, init)
  | Some path =>
      if bool_decide (path = "") then (Return tt, init)
      else load_tribal_boundaries E path init
  end.

(** The part of [main] between the check of the input file and the
    creation of the checker: [answer] is what was typed at the question
    about a custom boundaries file, [typed_path] what was typed as its
    path. *)
Definition main_checker (answer typed_path : string) : outcome unit * world num G :=
  let boundaries_file :=
    if bool_decide (Columns.lower answer = "y") then Some (strip typed_path) else None in
  TribalLandChecker boundaries_file.

Definition is_sleep (e : event) : bool :=
  match e with Sleep _ => true | _ => false end.

Definition is_read (e : event) : bool :=
  match e with ReadFile _ => true | _ => false end.

(** How many events of a kind are in a trace. *)
Definition tally (kind : event -> bool) (events : list event) : nat :=
  length (List.filter kind events).

(** The address a request carries, if the event is a request. *)
Definition query (e : event) : option string :=
  match e with
  | GetNominatim q | GetCensus q => Some q
  | _ => None
  end.

Definition is_missing (c : cell other) : bool :=
  match c with Missing => true | Value _ => false end.

(** A string of whitespace only (the empty string included). *)
Fixpoint all_space (s : string) : bool :=
  match s with
  | EmptyString => true
  | String c s' => isspace c && all_space s'
  end.

(** Some row of the frame contains the point. *)
Definition within_any (gdf : GeoDataFrame G) (lat lon : num) : bool :=
  existsb (fun b => contains E (geometry b) {| x := lon; y := lat |}) (features gdf).

End Model.
End Driver.

(* ===================================================================== *)
(** ** The classifier and the row loop on values as they come *)
(* ===================================================================== *)

(** [check_tribal_land] and the row loop of [process_excel] once more, this
    time with every place where they can raise: a row of the boundary frame
    may have no geometry ([None] in a frame over [option G]), on which
    [boundary.geometry.contains] raises; a coordinate may be a value that
    [Point(lon, lat)] or the format [{lat:.6f}] of the log line refuses;
    and the frame may lack the address column. The resolver is the one of
    [Checker]. What the libraries accept is left to the world:
    [point_builds lon lat] says whether [Point(lon, lat)] is built,
    [formats v] whether [v] can be formatted with [.6f]. A boundary frame
    has the columns [GEOID], [NAME] and [geometry], as the archive has,
    their values present or not; on a geometry that is present,
    [contains] returns. *)
Module Raw.
Import Strip Checker.

Section Model.
Context {num other G : Type}.
Variable E : outside num other (option G).
Variable point_builds : num -> num -> bool.
Variable formats : num -> bool.

Inductive error :=
| Propagated (e : exn)   (* raised by a method that was called *)
| BadPoint               (* [Point(lon, lat)], line 187 *)
| NoGeometry             (* [boundary.geometry.contains] on a null geometry, line 191 *)
| BadFormat              (* the format of the log line, line 268 *)
| NoColumn.              (* [row[address_column]], line 247 *)

(** The loop of [check_tribal_land]. [contains E] is asked about present
    geometries only. *)
Fixpoint iterrows_within (point : Point num) (idx : nat)
    (l : list (Boundary (option G))) : error + option nat :=
  match l with
  | [] => inr None
  | boundary :: rest =>
      match geometry boundary with
      | None => inl NoGeometry
      | Some g =>
          if contains E (Some g) point then inr (Some idx)
          else iterrows_within point (S idx) rest
      end
  end.

(** [check_tribal_land]: the download if nothing is loaded, the point, the
    loop. *)
Definition check_tribal_land (lat lon : num) (w : world num (option G))
  : (error + bool) * world num (option G) :=
  let loaded :=
    match tribal_boundaries w with
    | Some gdf => (inr gdf, w)
    | None =>
        match download_tribal_boundaries E w with
        | (Return gdf, w1) => (inr gdf, snd (set_tribal_boundaries gdf w1))
        | (Raise e, w1) => (inl (Propagated e), w1)
        end
    end in
  match loaded with
  | (inl e, w1) => (inl e, w1)
  | (inr boundaries, w1) =>
      if point_builds lon lat then
        match iterrows_within {| x := lon; y := lat |} 0 (features boundaries) with
        | inl e => (inl e, w1)
        | inr found => (inr (bool_decide (is_Some found)), w1)
        end
      else (inl BadPoint, w1)
  end.

(** The body of the row loop, lines 247-271. *)
Definition process_row (idx : nat) (address : cell other) (df : list (row num other))
    (w : world num (option G)) : (error + list (row num other)) * world num (option G) :=
  match address with
  | Missing => (inr (alter (set_On_Tribal_Land "No Data") idx df), w)
  | Value address =>
      match geocode_address E address w with
      | (Raise e, w1) => (inl (Propagated e), w1)
      | (Return None, w1) =>
          (inr (alter (set_On_Tribal_Land "Could Not Geocode") idx df), w1)
      | (Return (Some (lat, lon)), w1) =>
          let df := alter (set_Latitude lat) idx df in
          let df := alter (set_Longitude lon) idx df in
          match check_tribal_land lat lon w1 with
          | (inl e, w2) => (inl e, w2)
          | (inr on_tribal, w2) =>
              let df := alter (set_On_Tribal_Land (if on_tribal then "Yes" else "No")) idx df in
              if formats lat && formats lon then (inr df, w2) else (inl BadFormat, w2)
          end
      end
  end.

Fixpoint for_each_row (todo : list (nat * cell other)) (df : list (row num other))
    (w : world num (option G)) : (error + list (row num other)) * world num (option G) :=
  match todo with
  | [] => (inr df, w)
  | (idx, address) :: rest =>
      match process_row idx address df w with
      | (inr df', w') => for_each_row rest df' w'
      | (inl e, w') => (inl e, w')
      end
  end.

(** What the loop finds under [row[address_column]] after the three new
    columns were added: the cells of that column, or, for a frame of so
    many rows, no such column. *)
Inductive frame :=
| Cells (sheet : list (cell other))
| NoSuchColumn (rows : nat).

(** The row loop of [process_excel] and the frame it leaves. With no
    address column the first turn raises; a frame without rows is never
    asked for the column. *)
Definition process_excel (f : frame) (w : world num (option G))
  : (error + list (row num other)) * world num (option G) :=
  match f with
  | Cells sheet =>
      let df := map blank_row sheet in
      for_each_row (iterrows df) df w
  | NoSuchColumn 0 => (inr [], w)
  | NoSuchColumn (S _) => (inl NoColumn, w)
  end.

(** *** Vocabulary of the statements *)

(** One turn of the loop that ends well, from the checker before to the
    row written and the checker after: a missing cell costs nothing; a cell
    with a value goes to the resolver, and then, if the resolver returns a
    coordinate, to the classifier. *)
Inductive turn (w : world num (option G))
  : cell other -> row num other -> world num (option G) -> Prop :=
| turn_missing :
    turn w Missing
      {| address_cell := Missing; Latitude := None; Longitude := None;
         On_Tribal_Land := Some "No Data" |} w
| turn_unresolved a w1 :
    geocode_address E a w = (Return None, w1) ->
    turn w (Value a)
      {| address_cell := Value a; Latitude := None; Longitude := None;
         On_Tribal_Land := Some "Could Not Geocode" |} w1
| turn_resolved a lat lon w1 on_tribal w2 :
    geocode_address E a w = (Return (Some (lat, lon)), w1) ->
    check_tribal_land lat lon w1 = (inr on_tribal, w2) ->
    formats lat = true -> formats lon = true ->
    turn w (Value a)
      {| address_cell := Value a; Latitude := Some lat; Longitude := Some lon;
         On_Tribal_Land := Some (if on_tribal then "Yes" else "No") |} w2.

(** One turn that raises: always after the resolver returned a
    coordinate, in the classifier or at the log line. *)
Inductive halt (w : world num (option G))
  : cell other -> error -> world num (option G) -> Prop :=
| halt_classifier a lat lon w1 e w2 :
    geocode_address E a w = (Return (Some (lat, lon)), w1) ->
    check_tribal_land lat lon w1 = (inl e, w2) ->
    halt w (Value a) e w2
| halt_format a lat lon w1 on_tribal w2 :
    geocode_address E a w = (Return (Some (lat, lon)), w1) ->
    check_tribal_land lat lon w1 = (inr on_tribal, w2) ->
    formats lat && formats lon = false ->
    halt w (Value a) BadFormat w2.

(** Turn after turn through the cells, to the rows written. *)
Inductive run : world num (option G) -> list (cell other) -> list (row num other)
              -> world num (option G) -> Prop :=
| run_done w : run w [] [] w
| run_turn w c r w1 cells rows w' :
    turn w c r w1 -> run w1 cells rows w' -> run w (c :: cells) (r :: rows) w'.

(** Turn after turn until one raises. *)
Inductive stops : world num (option G) -> list (cell other) -> error
                -> world num (option G) -> Prop :=
| stops_here w c e w' cells : halt w c e w' -> stops w (c :: cells) e w'
| stops_later w c r w1 cells e w' :
    turn w c r w1 -> stops w1 cells e w' -> stops w (c :: cells) e w'.

(** Event sequences in which a request to the fallback service, or a
    pause, comes only right after a request to the primary service (for
    the same address), each such request having at most one of them
    after it. *)
Inductive paced : list event -> Prop :=
| paced_nil : paced []
| paced_alone q l : paced l -> paced (GetNominatim q :: l)
| paced_fallback q l : paced l -> paced (GetNominatim q :: GetCensus q :: l)
| paced_pause q l : paced l -> paced (GetNominatim q :: Sleep 1 :: l)
| paced_read l : paced l -> paced (ReadFile tiger_url :: l).

(** Some row of the frame has a geometry that contains the point. *)
Definition within_any (gdf : GeoDataFrame (option G)) (lat lon : num) : bool :=
  existsb (fun b => match geometry b with
                    | Some g => contains E (Some g) {| x := lon; y := lat |}
                    | None => false
                    end) (features gdf).



End Model.

Arguments frame : clear implicits.

End Raw.

(* ===================================================================== *)
(** ** Concrete runs on values as they come *)
(* ===================================================================== *)

Module RawCases.
Import Checker Scenario.

Open Scope Z_scope.

(** A coordinate value: a number, or the JSON [null]. *)
Inductive jvalue :=
| Number (z : Z)
| Null.

Definition is_number (v : jvalue) : bool :=
  match v with Number _ => true | Null => false end.

Definition both_numbers (lon lat : jvalue) : bool := is_number lon && is_number lat.

Definition raw_contains (g : option Planar.Polygon) (p : Point jvalue) : bool :=
  match g, x p, y p with
  | Some poly, Number px, Number py => Planar.contains poly {| x := px; y := py |}
  | _, _, _ => false
  end.

Definition raw_reservation : Boundary (option Planar.Polygon) :=
  {| GEOID := Some "2430"; NAME := Some "Test Reservation"; geometry := Some square |}.

(** A row whose geometry is null. *)
Definition hollow_row : Boundary (option Planar.Polygon) :=
  {| GEOID := Some "0000"; NAME := Some "No shape"; geometry := None |}.

Definition raw_store : GeoDataFrame (option Planar.Polygon) :=
  {| crs := Some EPSG_4326; features := [raw_reservation] |}.

Definition raw_hit : nominatim_hit jvalue :=
  {| hit_lat := Some (Number 35); hit_lon := Some (Number (-110)) |}.

(** The primary service finds every address; the archive can be read. *)
Definition steady : outside jvalue Z (option Planar.Polygon) :=
  {| py_str := decimal;
     contains := raw_contains;
     reproject := fun _ _ g => g;
     nominatim := fun _ _ => NominatimJson [raw_hit];
     census := fun _ _ => CensusJson [];
     read_file := fun _ _ => Some raw_store |}.

(** Neither service finds anything. *)
Definition nothing_found : outside jvalue Z (option Planar.Polygon) :=
  {| py_str := decimal;
     contains := raw_contains;
     reproject := fun _ _ g => g;
     nominatim := fun _ _ => NominatimJson [];
     census := fun _ _ => CensusJson [];
     read_file := fun _ _ => Some raw_store |}.

(** The primary service finds every address; the archive cannot be read. *)
Definition no_archive : outside jvalue Z (option Planar.Polygon) :=
  {| py_str := decimal;
     contains := raw_contains;
     reproject := fun _ _ g => g;
     nominatim := fun _ _ => NominatimJson [raw_hit];
     census := fun _ _ => CensusJson [];
     read_file := fun _ _ => None |}.

(** The fallback service answers with a match whose latitude is null. *)
Definition null_latitude : outside jvalue Z (option Planar.Polygon) :=
  {| py_str := decimal;
     contains := raw_contains;
     reproject := fun _ _ g => g;
     nominatim := fun _ _ => NominatimJson [];
     census := fun _ _ =>
       CensusJson [{| coordinates_y := Some Null; coordinates_x := Some (Number (-110)) |}];
     read_file := fun _ _ => Some raw_store |}.

(** A checker as [__init__] leaves it without a boundaries path. *)
Definition fresh : world jvalue (option Planar.Polygon) := init.

(** A checker whose boundaries are loaded. *)
Definition raw_loaded : world jvalue (option Planar.Polygon) :=
  {| tribal_boundaries := Some raw_store; geocoding_cache := ∅; trace := [] |}.

(** A checker whose first boundary row has no geometry. *)
Definition hollow_loaded : world jvalue (option Planar.Polygon) :=
  {| tribal_boundaries :=
       Some {| crs := Some EPSG_4326; features := [hollow_row; raw_reservation] |};
     geocoding_cache := ∅; trace := [] |}.

End RawCases.

(* ===================================================================== *)
(** ** Concrete runs with failing files *)
(* ===================================================================== *)

Module Faults.
Import Checker Scenario.

Open Scope Z_scope.

(** The primary service finds every address; no file can be read. *)
Definition archive_unreadable : outside Z Z Planar.Polygon :=
  {| py_str := decimal;
     contains := Planar.contains;
     reproject := fun _ _ => shift;
     nominatim := fun _ _ => NominatimJson [hit];
     census := fun _ _ => CensusRaises;
     read_file := fun _ _ => None |}.

(** Every file holds the test reservation, without a reference system. *)
Definition file_without_crs : outside Z Z Planar.Polygon :=
  {| py_str := decimal;
     contains := Planar.contains;
     reproject := fun _ _ => shift;
     nominatim := fun _ _ => NominatimJson [];
     census := fun _ _ => CensusJson [];
     read_file := fun _ _ => Some {| crs := None; features := [reservation] |} |}.

(** The primary service returns a first result without a latitude and a
    complete second one. *)
Definition first_result_broken : outside Z Z Planar.Polygon :=
  {| py_str := decimal;
     contains := Planar.contains;
     reproject := fun _ _ => shift;
     nominatim := fun _ _ => NominatimJson [{| hit_lat := None; hit_lon := Some (-110) |}; hit];
     census := fun _ _ => CensusJson [address_match];
     read_file := fun _ _ => Some archive |}.

End Faults.

(* ===================================================================== *)
(** ** Facts about [strip] *)
(* ===================================================================== *)

Section StripFacts.
Import Strip.

Lemma lstrip_clean_front s : clean_front (lstrip s).
Proof.
  induction s as [|c s IH]; simpl; [exact I|].
  destruct (isspace c) eqn:E; [exact IH | simpl; exact E].
Qed.

Lemma lstrip_fixed s : clean_front s -> lstrip s = s.
Proof.
  destruct s as [|c s]; simpl; [reflexivity|].
  intros ->. reflexivity.
Qed.

Lemma rstrip_clean_front s : clean_front s -> clean_front (rstrip s).
Proof.
  destruct s as [|c s]; simpl; [exact (fun H => H)|].
  intros Hc. destruct (rstrip s); simpl; [rewrite Hc; simpl|]; exact Hc.
Qed.

Lemma rstrip_idem s : rstrip (rstrip s) = rstrip s.
Proof.
  induction s as [|c s IH]; simpl; [reflexivity|].
  destruct (rstrip s) as [|d r] eqn:E.
  - destruct (isspace c) eqn:Ec; simpl; [reflexivity | rewrite Ec; reflexivity].
  - change (rstrip (String c (String d r))) with
      (match rstrip (String d r) with
       | EmptyString => if isspace c then EmptyString else String c EmptyString
       | r' => String c r'
       end).
    rewrite IH. reflexivity.
Qed.

Lemma strip_idem s : strip (strip s) = strip s.
Proof.
  unfold strip.
  rewrite (lstrip_fixed (rstrip (lstrip s))).
  - apply rstrip_idem.
  - apply rstrip_clean_front, lstrip_clean_front.
Qed.

Lemma strip_trimmed s : trimmed (strip s).
Proof. apply strip_idem. Qed.

#[global] Instance trimmed_dec s : Decision (trimmed s).
Proof. unfold trimmed. apply _. Defined.

Example strip_padded : strip "  12 Elm St " = "12 Elm St".
Proof. reflexivity. Qed.

Example strip_blank : strip "   " = "".
Proof. reflexivity. Qed.

Example strip_inner_kept : strip "a  b" = "a  b".
Proof. reflexivity. Qed.


End StripFacts.

(* ===================================================================== *)
(** ** The resolver: [geocode_address] *)
(* ===================================================================== *)

Section Resolver.
Import Strip Checker.
Context {num other G : Type} (E : outside num other G).
Implicit Types (w : world num G) (address : pyobj other).

Ltac run_method :=
  unfold geocode_address, check_tribal_land, download_tribal_boundaries,
    load_tribal_boundaries, to_crs, try_except, get_nominatim, get_census,
    gpd_read_file, subscript, cache_store, set_tribal_boundaries, sleep, gets,
    raise, emit, mbind, mret, M_bind, M_ret; simpl.

Lemma geocode_address_hit address w cached :
  cache_get address (geocoding_cache w) = Some cached ->
  geocode_address E address w = (Return cached, w).
Proof. intros H. run_method. rewrite H. reflexivity. Qed.

Lemma geocode_address_miss address w :
  cache_get address (geocoding_cache w) = None ->
  let q := strip (str E address) in
  let a := miss_answer E (length (trace w)) q in
  geocode_address E address w =
  (Return (fst a),
   {| tribal_boundaries := tribal_boundaries w;
      geocoding_cache := <[q := fst a]> (geocoding_cache w);
      trace := trace w ++ snd a |}).
Proof.
  intros H q a. subst a. run_method. rewrite H. fold q. unfold miss_answer.
  destruct (nominatim E (length (trace w)) q) as [|[|hit data]]; simpl.
  - reflexivity.
  - rewrite length_app, Nat.add_1_r. simpl.
    destruct (census E (S (length (trace w))) q) as [|[|m l]]; simpl;
      rewrite <- ?app_assoc; simpl; try reflexivity.
    destruct (coordinates_y m), (coordinates_x m); simpl; reflexivity.
  - destruct (hit_lat hit), (hit_lon hit); simpl;
      rewrite <- ?app_assoc; simpl; reflexivity.
Qed.


(** The method always returns (no exception reaches the caller) and leaves
    the boundaries alone. *)
Lemma geocode_address_returns address w :
  exists result w',
    geocode_address E address w = (Return result, w') /\
    tribal_boundaries w' = tribal_boundaries w.
Proof.
  destruct (cache_get address (geocoding_cache w)) as [cached|] eqn:H.
  - exists cached, w. split; [apply geocode_address_hit, H | reflexivity].
  - eexists _, _. split; [apply geocode_address_miss, H | reflexivity].
Qed.

Lemma miss_answer_events t q :
  snd (miss_answer E t q) = [GetNominatim q]
  \/ snd (miss_answer E t q) = [GetNominatim q; Sleep 1]
  \/ snd (miss_answer E t q) = [GetNominatim q; GetCensus q].
Proof.
  unfold miss_answer.
  destruct (nominatim E t q) as [|[|hit data]]; simpl; auto.
  destruct (hit_lat hit), (hit_lon hit); simpl; auto.
Qed.

(** The pause happens exactly when the primary service gave a usable
    first result. *)
Lemma miss_answer_sleeps t q :
  In (Sleep 1) (snd (miss_answer E t q)) <->
  exists hit data lat lon,
    nominatim E t q = NominatimJson (hit :: data)
    /\ hit_lat hit = Some lat /\ hit_lon hit = Some lon.
Proof.
  unfold miss_answer.
  destruct (nominatim E t q) as [|[|hit data]]; simpl.
  - split; [intros [H|[]]; discriminate | intros (?&?&?&?&?&_); discriminate].
  - split; [intros [H|[H|[]]]; discriminate | intros (?&?&?&?&?&_); discriminate].
  - destruct (hit_lat hit) as [lat|] eqn:Hlat, (hit_lon hit) as [lon|] eqn:Hlon; simpl.
    + split; [intros _; eauto 10 | auto].
    + split; [intros [H|[]]; discriminate |].
      intros (h&d&?&?&Heq&_&Hl). injection Heq as <- <-. congruence.
    + split; [intros [H|[]]; discriminate |].
      intros (h&d&?&?&Heq&Hl&_). injection Heq as <- <-. congruence.
    + split; [intros [H|[]]; discriminate |].
      intros (h&d&?&?&Heq&Hl&_). injection Heq as <- <-. congruence.
Qed.

(** When both services find nothing, or one of them fails, the answer of a
    cache miss is "nothing"; [geocode_address_miss] stores it under the
    cleaned address. *)
Lemma miss_answer_nothing t q :
  nominatim E t q = NominatimRaises
  \/ (exists hit data, nominatim E t q = NominatimJson (hit :: data)
        /\ (hit_lat hit = None \/ hit_lon hit = None))
  \/ (nominatim E t q = NominatimJson []
      /\ (census E (S t) q = CensusRaises
          \/ census E (S t) q = CensusJson []
          \/ exists m l, census E (S t) q = CensusJson (m :: l)
               /\ (coordinates_y m = None \/ coordinates_x m = None))) ->
  fst (miss_answer E t q) = None.
Proof.
  unfold miss_answer.
  intros [->|[(hit&data&->&Hf)|(->&Hc)]]; simpl; [reflexivity| |].
  - destruct Hf as [->| ->]; [reflexivity|]. destruct (hit_lat hit); reflexivity.
  - destruct Hc as [->|[->|(m&l&->&[->| ->])]]; simpl; try reflexivity.
    destruct (coordinates_y m); reflexivity.
Qed.

(** Failure is cached and returned as [None]; nothing is raised. *)
Lemma geocode_address_failure address w :
  cache_get address (geocoding_cache w) = None ->
  let q := strip (str E address) in
  let t := length (trace w) in
  nominatim E t q = NominatimRaises
  \/ (exists hit data, nominatim E t q = NominatimJson (hit :: data)
        /\ (hit_lat hit = None \/ hit_lon hit = None))
  \/ (nominatim E t q = NominatimJson []
      /\ (census E (S t) q = CensusRaises
          \/ census E (S t) q = CensusJson []
          \/ exists m l, census E (S t) q = CensusJson (m :: l)
               /\ (coordinates_y m = None \/ coordinates_x m = None))) ->
  exists w',
    geocode_address E address w = (Return None, w')
    /\ geocoding_cache w' = <[q := None]> (geocoding_cache w).
Proof.
  intros Hmiss q t Hfail.
  pose proof (geocode_address_miss address w Hmiss) as Hrun.
  fold q t in Hrun. simpl in Hrun.
  rewrite (miss_answer_nothing t q Hfail) in Hrun.
  eexists. split; [exact Hrun | reflexivity].
Qed.

(** The method pauses exactly when it asked the primary service and got
    a usable first result; a cache hit causes no event at all. *)
Lemma geocode_address_pauses address w :
  cache_get address (geocoding_cache w) = None ->
  let q := strip (str E address) in
  let t := length (trace w) in
  exists events,
    trace (snd (geocode_address E address w)) = trace w ++ events
    /\ (In (Sleep 1) events <->
        exists hit data lat lon,
          nominatim E t q = NominatimJson (hit :: data)
          /\ hit_lat hit = Some lat /\ hit_lon hit = Some lon).
Proof.
  intros Hmiss q t.
  rewrite (geocode_address_miss address w Hmiss). fold q t. simpl.
  eexists. split; [reflexivity | apply miss_answer_sleeps].
Qed.

Lemma keys_trimmed_empty : keys_trimmed (∅ : gmap string (option (@Coordinate num))).
Proof. intros k [v Hv]. rewrite lookup_empty in Hv. discriminate. Qed.

Lemma keys_trimmed_insert (cache : gmap string (option (@Coordinate num))) q r :
  trimmed q -> keys_trimmed cache -> keys_trimmed (<[q := r]> cache).
Proof.
  intros Hq Hc k [v Hv].
  destruct (decide (q = k)) as [<-|Hne]; [exact Hq|].
  rewrite lookup_insert_ne in Hv by exact Hne. apply Hc. eauto.
Qed.

(** Under [keys_trimmed], a value that is not a cleaned string is never
    found in the cache. *)
Lemma cache_get_untrimmed (cache : gmap string (option (@Coordinate num))) s :
  keys_trimmed cache -> ~ trimmed s -> cache_get (PyStr (other := other) s) cache = None.
Proof.
  intros Hc Hs. simpl. destruct (cache !! s) eqn:Hl; [|reflexivity].
  exfalso. apply Hs, Hc. eauto.
Qed.

(** C2. On a cache miss the primary service is asked first, with the
    cleaned address; the fallback service is asked (once, right after,
    that is one event later) exactly when the primary service answered
    with an empty list, and not when it failed or gave a result; and a
    match of the fallback service is returned and stored in the cache
    under the cleaned address. *)
Theorem provider_order address w :
  cache_get address (geocoding_cache w) = None ->
  let q := strip (str E address) in
  let t := length (trace w) in
  exists result w' later,
    geocode_address E address w = (Return result, w')
    /\ trace w' = trace w ++ GetNominatim q :: later
    /\ Forall (fun e => to_nominatim e = false) later
    /\ (nominatim E t q = NominatimJson [] -> later = [GetCensus q])
    /\ (nominatim E t q <> NominatimJson [] -> Forall (fun e => to_census e = false) later)
    /\ (forall m l lat lon,
          nominatim E t q = NominatimJson [] ->
          census E (S t) q = CensusJson (m :: l) ->
          coordinates_y m = Some lat -> coordinates_x m = Some lon ->
          result = Some (lat, lon)
          /\ geocoding_cache w' = <[q := Some (lat, lon)]> (geocoding_cache w)).
Proof.
  intros Hmiss q t.
  pose proof (geocode_address_miss address w Hmiss) as Hrun.
  fold q t in Hrun. simpl in Hrun.
  exists (fst (miss_answer E t q)),
    {| tribal_boundaries := tribal_boundaries w;
       geocoding_cache := <[q := fst (miss_answer E t q)]> (geocoding_cache w);
       trace := trace w ++ snd (miss_answer E t q) |},
    (tl (snd (miss_answer E t q))).
  split; [exact Hrun|]. simpl. unfold miss_answer.
  destruct (nominatim E t q) as [|[|hit data]] eqn:Hn; simpl.
  - split_and!; auto; try discriminate.
  - split_and!; auto; try congruence.
    intros m l lat lon _ Hc Hy Hx. rewrite Hc, Hy, Hx. auto.
  - destruct (hit_lat hit), (hit_lon hit); simpl;
      split_and!; auto; try discriminate.
Qed.

(** C10. The cache is looked up with the address as given and written
    with the cleaned address. Whenever all keys are cleaned strings (as in
    a fresh checker), a call keeps them so; a call that misses stores one
    entry, the returned value under the cleaned address, after asking the
    primary service; a string with surrounding whitespace is not found
    before the call nor after it; and the cleaned address, asked next, is
    answered from the cache with the same value and no further event. *)
Theorem cache_keyed_by_cleaned_address address w :
  keys_trimmed (geocoding_cache w) ->
  let q := strip (str E address) in
  exists result w',
    geocode_address E address w = (Return result, w')
    /\ keys_trimmed (geocoding_cache w')
    /\ (forall cached, cache_get address (geocoding_cache w) = Some cached ->
          result = cached /\ w' = w)
    /\ (cache_get address (geocoding_cache w) = None ->
          geocoding_cache w' = <[q := result]> (geocoding_cache w)
          /\ exists later, trace w' = trace w ++ GetNominatim q :: later)
    /\ (forall s, address = PyStr s -> ~ trimmed s ->
          cache_get address (geocoding_cache w) = None
          /\ cache_get address (geocoding_cache w') = None)
    /\ geocode_address E (PyStr q) w' = (Return result, w').
Proof.
  intros Hkeys q.
  destruct (cache_get address (geocoding_cache w)) as [cached|] eqn:Hget.
  - exists cached, w.
    assert (Hq : PyStr q = address).
    { destruct address as [s|o]; [|discriminate]. simpl in Hget.
      subst q. simpl. f_equal. apply Hkeys. eauto. }
    split; [apply geocode_address_hit, Hget|].
    split; [exact Hkeys|].
    split; [intros c Hc; injection Hc as <-; auto|].
    split; [discriminate|].
    split.
    + intros s -> Hs. rewrite (cache_get_untrimmed _ s Hkeys Hs) in Hget. discriminate.
    + rewrite Hq. apply geocode_address_hit, Hget.
  - pose proof (geocode_address_miss address w Hget) as Hrun.
    fold q in Hrun. simpl in Hrun.
    set (a := miss_answer E (length (trace w)) q) in *.
    assert (Hkeys' : keys_trimmed (<[q := fst a]> (geocoding_cache w))).
    { apply keys_trimmed_insert; [apply strip_trimmed | exact Hkeys]. }
    eexists _, _. split; [exact Hrun|]. simpl.
    split; [exact Hkeys'|].
    split; [discriminate|].
    split.
    + intros _. split; [reflexivity|].
      exists (tl (snd a)). f_equal. subst a.
      destruct (miss_answer_events (length (trace w)) q) as [->|[->| ->]]; reflexivity.
    + split.
      * intros s -> Hs. split; [reflexivity|].
        apply (cache_get_untrimmed _ s Hkeys' Hs).
      * apply geocode_address_hit. simpl. apply lookup_insert_eq.
Qed.


(** Calls for other addresses do not disturb the entry of a cleaned
    address [a], as long as none of them is a padded variant of [a] (or
    a value of another type that prints as [a]). *)
Lemma resolve_each_keeps (a : string) (between : list (pyobj other)) w r :
  Forall (fun b => strip (str E b) = a -> b = PyStr a) between ->
  geocoding_cache w !! a = Some r ->
  geocoding_cache (resolve_each E between w) !! a = Some r.
Proof.
  intros Hb. revert w. induction Hb as [|b between Hb _ IH]; intros w Ha; simpl.
  - exact Ha.
  - apply IH.
    destruct (cache_get b (geocoding_cache w)) as [cached|] eqn:Hget.
    + rewrite (geocode_address_hit b w cached Hget). exact Ha.
    + rewrite (geocode_address_miss b w Hget). simpl.
      rewrite lookup_insert_ne; [exact Ha|].
      intros Heq. specialize (Hb Heq). subst b. simpl in Hget. congruence.
Qed.

(** C3 (amended). For an address without surrounding whitespace, the
    first call asks each service at most once (the primary one, and the
    fallback one only after it), and a later call in the same run, with no
    padded variant of the address resolved in between, returns the same
    value from the cache and does nothing else. *)
Theorem cleaned_address_resolved_once (a : string) (between : list (pyobj other)) w :
  trimmed a ->
  Forall (fun b => strip (str E b) = a -> b = PyStr a) between ->
  exists result w1 events,
    geocode_address E (PyStr a) w = (Return result, w1)
    /\ trace w1 = trace w ++ events
    /\ length (List.filter to_nominatim events) <= 1
    /\ length (List.filter to_census events) <= 1
    /\ length (List.filter to_nominatim events ++ List.filter to_census events) <= 2
    /\ let w2 := resolve_each E between w1 in
       geocode_address E (PyStr a) w2 = (Return result, w2).
Proof.
  intros Ha Hb.
  destruct (cache_get (PyStr (other := other) a) (geocoding_cache w)) as [cached|] eqn:Hget.
  - exists cached, w, []. split; [apply geocode_address_hit, Hget|].
    split; [symmetry; apply app_nil_r|]. simpl. split_and!; try lia.
    apply geocode_address_hit. simpl. apply resolve_each_keeps; assumption.
  - pose proof (geocode_address_miss _ w Hget) as Hrun. simpl in Hrun.
    rewrite Ha in Hrun.
    set (ans := miss_answer E (length (trace w)) a) in *.
    eexists _, _, (snd ans). split; [exact Hrun|]. simpl.
    split; [reflexivity|].
    assert (Hev : snd ans = [GetNominatim a] \/ snd ans = [GetNominatim a; Sleep 1]
                  \/ snd ans = [GetNominatim a; GetCensus a])
      by apply miss_answer_events.
    split_and!.
    1-3: destruct Hev as [->|[->| ->]]; simpl; lia.
    apply geocode_address_hit. simpl. apply resolve_each_keeps; [assumption|].
    simpl. apply lookup_insert_eq.
Qed.

End Resolver.

(* ===================================================================== *)
(** ** The classifier: [check_tribal_land] *)
(* ===================================================================== *)

Section Classifier.
Import Checker.
Context {num other G : Type} (E : outside num other G).
Implicit Types (w : world num G) (gdf : GeoDataFrame G) (point : Point num).

(** Where the loop returns [True]: at the first row that contains the
    point, having tested the rows before it and none after it. *)
Lemma iterrows_within_first point l : forall start i,
  iterrows_within E point start l = Some i ->
  exists before b after,
    l = before ++ b :: after
    /\ Forall (fun b' => contains E (geometry b') point = false) before
    /\ contains E (geometry b) point = true
    /\ i = start + length before.
Proof.
  induction l as [|b l IH]; intros start i; simpl; [discriminate|].
  destruct (contains E (geometry b) point) eqn:Hb.
  - intros [= <-]. exists [], b, l. simpl. split_and!; auto.
  - intros Hi. destruct (IH _ _ Hi) as (before & b' & after & -> & Hbefore & Hb' & ->).
    exists (b :: before), b', after. simpl. split_and!; auto; lia.
Qed.

(** Where it runs off the end: no row contains the point. *)
Lemma iterrows_within_exhausted point l : forall start,
  iterrows_within E point start l = None <->
  Forall (fun b => contains E (geometry b) point = false) l.
Proof.
  induction l as [|b l IH]; intros start; simpl.
  - split; auto.
  - destruct (contains E (geometry b) point) eqn:Hb.
    + split; [discriminate|]. intros H. inversion H; congruence.
    + rewrite IH. split; [auto|]. intros H. inversion H; assumption.
Qed.

Lemma iterrows_within_some_contains point l start :
  is_Some (iterrows_within E point start l) <->
  exists b, In b l /\ contains E (geometry b) point = true.
Proof.
  split.
  - intros [i Hi].
    destruct (iterrows_within_first _ _ _ _ Hi) as (before & b & after & -> & _ & Hb & _).
    exists b. split; [apply in_elt | exact Hb].
  - intros (b & Hin & Hb).
    destruct (iterrows_within E point start l) eqn:Hl; [eauto|].
    apply iterrows_within_exhausted in Hl.
    rewrite Forall_forall in Hl.
    specialize (Hl b (proj2 (list_elem_of_In _ _) Hin)). congruence.
Qed.

(** With the boundaries loaded the method only reads. *)
Lemma check_tribal_land_loaded w gdf lat lon :
  tribal_boundaries w = Some gdf ->
  check_tribal_land E lat lon w =
  (Return (bool_decide (is_Some (iterrows_within E {| x := lon; y := lat |} 0 (features gdf)))), w).
Proof.
  intros H. unfold check_tribal_land, gets, mbind, mret, M_bind, M_ret.
  rewrite H. reflexivity.
Qed.

(** Without them it downloads first: the rows of the archive that have a
    [GEOID], as they are in the archive. *)
Lemma check_tribal_land_lazy w gdf lat lon :
  tribal_boundaries w = None ->
  read_file E (length (trace w)) tiger_url = Some gdf ->
  let kept := {| crs := crs gdf;
                 features := List.filter (fun b => bool_decide (is_Some (GEOID b)))
                                         (features gdf) |} in
  check_tribal_land E lat lon w =
  (Return (bool_decide (is_Some (iterrows_within E {| x := lon; y := lat |} 0 (features kept)))),
   {| tribal_boundaries := Some kept;
      geocoding_cache := geocoding_cache w;
      trace := trace w ++ [ReadFile tiger_url] |}).
Proof.
  intros H Hread.
  unfold check_tribal_land, download_tribal_boundaries, gpd_read_file,
    set_tribal_boundaries, gets, mbind, mret, M_bind, M_ret.
  rewrite H, Hread. reflexivity.
Qed.

(** If the archive cannot be read the exception leaves the method. *)
Lemma check_tribal_land_fatal w lat lon :
  tribal_boundaries w = None ->
  read_file E (length (trace w)) tiger_url = None ->
  check_tribal_land E lat lon w = (Raise ReadError, emit (ReadFile tiger_url) w).
Proof.
  intros H Hread.
  unfold check_tribal_land, download_tribal_boundaries, gpd_read_file,
    set_tribal_boundaries, gets, mbind, mret, M_bind, M_ret.
  rewrite H, Hread. reflexivity.
Qed.

(** C1. With the boundaries [gdf] loaded, [check_tribal_land lat lon]
    returns [True] exactly when some row's geometry contains the point
    built as (x = lon, y = lat); it returns at the first such row, and
    returns [False] only when every row was tested without a match; so the
    answer is the same for any other order of the rows, and it is [False]
    when there are no rows. The checker is left as it was. *)
Theorem on_tribal_land_iff_some_boundary_contains w gdf lat lon :
  tribal_boundaries w = Some gdf ->
  let point := {| x := lon; y := lat |} in
  exists answer,
    check_tribal_land E lat lon w = (Return answer, w)
    /\ (answer = true <->
        exists b, In b (features gdf) /\ contains E (geometry b) point = true)
    /\ (answer = true ->
        exists before b after,
          features gdf = before ++ b :: after
          /\ Forall (fun b' => contains E (geometry b') point = false) before
          /\ contains E (geometry b) point = true
          /\ iterrows_within E point 0 (features gdf) = Some (length before))
    /\ (answer = false ->
        iterrows_within E point 0 (features gdf) = None
        /\ Forall (fun b => contains E (geometry b) point = false) (features gdf))
    /\ (forall w' gdf',
          tribal_boundaries w' = Some gdf' ->
          Permutation (features gdf) (features gdf') ->
          check_tribal_land E lat lon w' = (Return answer, w'))
    /\ (features gdf = [] -> answer = false).
Proof.
  intros Hloaded point.
  eexists. split; [apply (check_tribal_land_loaded _ gdf), Hloaded|]. fold point.
  split_and!.
  - rewrite bool_decide_eq_true. apply iterrows_within_some_contains.
  - rewrite bool_decide_eq_true. intros [i Hi].
    destruct (iterrows_within_first _ _ _ _ Hi) as (before & b & after & Hl & Hbefore & Hb & ->).
    exists before, b, after. auto.
  - rewrite bool_decide_eq_false. intros Hnone.
    assert (Hl : iterrows_within E point 0 (features gdf) = None).
    { destruct (iterrows_within E point 0 (features gdf)) eqn:Hl; [|reflexivity].
      exfalso. apply Hnone. eauto. }
    split; [exact Hl | apply (iterrows_within_exhausted _ _ 0), Hl].
  - intros w' gdf' Hloaded' Hperm.
    rewrite (check_tribal_land_loaded w' gdf' _ _ Hloaded'). fold point.
    f_equal. f_equal. apply bool_decide_ext.
    rewrite !iterrows_within_some_contains.
    split; intros (b & Hin & Hb); exists b; split; auto.
    + apply (Permutation_in _ (Permutation_sym Hperm) Hin).
    + apply (Permutation_in _ Hperm Hin).
  - intros ->. reflexivity.
Qed.

End Classifier.

(* ===================================================================== *)
(** ** The batch: the row loop of [process_excel] *)
(* ===================================================================== *)

Section Batch.
Import Checker.
Context {num other G : Type} (E : outside num other G).
Implicit Types (w : world num G) (df done : list (row num other))
  (sheet pending : list (cell other)).

Lemma alter_here (f : row num other -> row num other) done r rest :
  alter f (length done) (done ++ r :: rest) = done ++ f r :: rest.
Proof.
  replace (length done) with (length done + 0) by lia.
  rewrite alter_app_r. reflexivity.
Qed.

(** A fatal load failure leaves the loop at once: the exception of
    [check_tribal_land] is the outcome of the turn. *)
Lemma process_row_aborts idx (a : pyobj other) df w lat lon w1 e w2 :
  geocode_address E a w = (Return (Some (lat, lon)), w1) ->
  check_tribal_land E lat lon w1 = (Raise e, w2) ->
  process_row E idx (Value a) df w = (Raise e, w2).
Proof.
  intros Hgeo Hchk. simpl. unfold mbind, M_bind. rewrite Hgeo, Hchk. reflexivity.
Qed.

Lemma for_each_row_cons idx (c : cell other) todo df w :
  for_each_row E ((idx, c) :: todo) df w =
  match process_row E idx c df w with
  | (Return df', w') => for_each_row E todo df' w'
  | (Raise e, w') => (Raise e, w')
  end.
Proof. reflexivity. Qed.

(** A classified row carries one of the four labels, so it is counted
    once. *)
Lemma count_label_partition df :
  Forall classified df ->
  count_label "Yes" df + count_label "No" df
  + count_label "Could Not Geocode" df + count_label "No Data" df = length df.
Proof.
  unfold count_label.
  induction 1 as [|r df Hr _ IH]; [reflexivity|].
  assert (Hlabel : On_Tribal_Land r = Some "Yes" \/ On_Tribal_Land r = Some "No"
                   \/ On_Tribal_Land r = Some "Could Not Geocode"
                   \/ On_Tribal_Land r = Some "No Data").
  { unfold classified in Hr. destruct (address_cell r); tauto. }
  cbn [List.filter].
  destruct Hlabel as [->|[->|[->| ->]]];
    repeat match goal with
      | |- context [bool_decide (?a = ?b)] =>
          first [ rewrite (bool_decide_eq_true_2 (a = b)) by reflexivity
                | rewrite (bool_decide_eq_false_2 (a = b)) by discriminate ]
      end;
    cbn [length]; lia.
Qed.

End Batch.

(* ===================================================================== *)
(** ** The edge convention of the containment test *)
(* ===================================================================== *)

Section EdgeConvention.
Import Checker.
Open Scope Z_scope.





Context {other : Type} (E : outside Z other Planar.Polygon).

(** In range, the one quantity the test computes fits a double-precision
    number with room to spare. *)
Lemma cross_in_range a b p :
  Planar.in_range a -> Planar.in_range b -> Planar.in_range p ->
  -(2 ^ 53) < Planar.cross a b p < 2 ^ 53.
Proof.
  unfold Planar.in_range, Planar.cross.
  destruct a as [ax ay], b as [bx by_], p as [px py]. simpl.
  intros [Hax Hay] [Hbx Hby] [Hpx Hpy].
  assert (H1 : -64800 <= (bx - ax) * (py - ay) <= 64800) by nia.
  assert (H2 : -64800 <= (by_ - ay) * (px - ax) <= 64800) by nia.
  change (2 ^ 53) with 9007199254740992. lia.
Qed.


End EdgeConvention.

(* ===================================================================== *)
(** ** The boundary store: loading and reference systems *)
(* ===================================================================== *)

Section Boundaries.
Import Checker.
Context {num other G : Type} (E : outside num other G).
Implicit Types (w : world num G).

(** The explicit load leaves the store in EPSG:4326 whenever it returns. *)
Lemma load_tribal_boundaries_reprojects path w w' :
  load_tribal_boundaries E path w = (Return tt, w') ->
  exists gdf, tribal_boundaries w' = Some gdf /\ crs gdf = Some EPSG_4326.
Proof.
  unfold load_tribal_boundaries, gpd_read_file, set_tribal_boundaries, to_crs,
    raise, mbind, mret, M_bind, M_ret.
  destruct (read_file E (length (trace w)) path) as [gdf|]; [|discriminate].
  simpl. case_bool_decide as Hcrs.
  - intros [= <-]. simpl. eauto.
  - destruct (crs gdf); [|discriminate].
    intros [= <-]. simpl. eauto.
Qed.

(** The lazy download stores the archive in the reference system it came
    in, whichever that is. *)
Lemma lazy_download_keeps_crs w gdf lat lon :
  tribal_boundaries w = None ->
  read_file E (length (trace w)) tiger_url = Some gdf ->
  crs <$> tribal_boundaries (snd (check_tribal_land E lat lon w)) = Some (crs gdf).
Proof.
  intros Hnone Hread. rewrite (check_tribal_land_lazy E w gdf) by assumption.
  reflexivity.
Qed.

End Boundaries.

(* ===================================================================== *)
(** ** Runs on concrete inputs *)
(* ===================================================================== *)

Section Runs.
Import Strip Checker Scenario.
Open Scope Z_scope.

Abbreviation text := (@PyStr Z) (only parsing).

(** The test store: the centre of the square is inside, the origin is
    far outside, a corner is on the boundary line. *)
Example centre_inside :
  check_tribal_land unknown_everywhere 35 (-110) loaded = (Return true, loaded).
Proof. reflexivity. Qed.

Example origin_outside :
  check_tribal_land unknown_everywhere 0 0 loaded = (Return false, loaded).
Proof. reflexivity. Qed.

Example corner_location : Planar.locate (-105, 40) square = Planar.OnBoundary.
Proof. reflexivity. Qed.

(** A square with a square hole: inside the hole is outside the polygon,
    on the rim of the hole is on its boundary. *)
Example hole_locations :
  let ring := {| Planar.shell := [(0, 0); (10, 0); (10, 10); (0, 10)];
                 Planar.holes := [[(4, 4); (6, 4); (6, 6); (4, 6)]] |} in
  Planar.locate (2, 2) ring = Planar.Interior
  /\ Planar.locate (5, 5) ring = Planar.Exterior
  /\ Planar.locate (4, 5) ring = Planar.OnBoundary
  /\ Planar.locate (12, 5) ring = Planar.Exterior.
Proof. repeat split. Qed.

(** A sheet of three rows, the boundaries being downloaded on the way. *)
Example three_rows :
  fst (process_excel primary_finds
         [Missing; Value (text " 12 Elm St "); Value (PyOther 85001)] init)
  = Return
      [{| address_cell := Missing; Latitude := None; Longitude := None;
          On_Tribal_Land := Some "No Data" |};
       {| address_cell := Value (text " 12 Elm St ");
          Latitude := Some 35; Longitude := Some (-110);
          On_Tribal_Land := Some "Yes" |};
       {| address_cell := Value (PyOther 85001);
          Latitude := Some 35; Longitude := Some (-110);
          On_Tribal_Land := Some "Yes" |}].
Proof. reflexivity. Qed.

(** C1, on the loaded test store: the centre of the square is on Tribal
    land, and stays so whatever the order of the rows. *)
Lemma on_tribal_land_witness :
  tribal_boundaries loaded = Some store
  /\ check_tribal_land unknown_everywhere 35 (-110) loaded = (Return true, loaded).
Proof.
  split; [reflexivity|].
  destruct (on_tribal_land_iff_some_boundary_contains
              unknown_everywhere loaded store 35 (-110) eq_refl)
    as (answer & Hrun & Hiff & _).
  assert (Ht : answer = true)
    by (apply Hiff; exists reservation; split; [left; reflexivity | reflexivity]).
  rewrite Hrun, Ht. reflexivity.
Defined.

(** C2, for a padded address the primary service does not know and the
    fallback service does. *)
Lemma provider_order_witness :
  cache_get (text " 12 Elm St ") (geocoding_cache (init : world Z Planar.Polygon)) = None
  /\ exists w',
       geocode_address fallback_finds (text " 12 Elm St ") init
       = (Return (Some (35, -110)), w')
       /\ trace w' = [GetNominatim "12 Elm St"; GetCensus "12 Elm St"]
       /\ geocoding_cache w' !! "12 Elm St" = Some (Some (35, -110)).
Proof.
  split; [reflexivity|].
  destruct (provider_order fallback_finds (text " 12 Elm St ") init eq_refl)
    as (result & w' & later & Hrun & Htrace & _ & Hempty & _ & Hmatch).
  destruct (Hmatch address_match [] 35 (-110) eq_refl eq_refl eq_refl eq_refl)
    as [-> Hcache].
  exists w'. split; [exact Hrun|]. split.
  - rewrite Htrace, (Hempty eq_refl). reflexivity.
  - rewrite Hcache. apply lookup_insert_eq.
Defined.

(** C3 fails as stated: one address without surrounding whitespace,
    resolved twice, costs two requests to the services (one each), not at
    most one; and a padded address is looked up as given, so its second
    call is not answered from the cache but asks the services again. *)
Lemma one_address_two_requests :
  let w1 := snd (geocode_address fallback_finds (text "12 Elm St") init) in
  let w2 := snd (geocode_address fallback_finds (text "12 Elm St") w1) in
  let p1 := snd (geocode_address fallback_finds (text " 12 Elm St") init) in
  let p2 := snd (geocode_address fallback_finds (text " 12 Elm St") p1) in
  trimmed "12 Elm St"
  /\ trace w2 = [GetNominatim "12 Elm St"; GetCensus "12 Elm St"]
  /\ ~ (length (List.filter (fun e => to_nominatim e || to_census e) (trace w2)) <= 1)%nat
  /\ cache_get (text " 12 Elm St") (geocoding_cache p1) = None
  /\ trace p2 = [GetNominatim "12 Elm St"; GetCensus "12 Elm St";
                 GetNominatim "12 Elm St"; GetCensus "12 Elm St"].
Proof.
  split; [reflexivity|]. split; [reflexivity|].
  split; [vm_compute; lia|]. split; reflexivity.
Qed.

(** C3 (amended), for an address resolved again after two others. *)
Lemma cleaned_address_witness :
  trimmed "12 Elm St"
  /\ exists result w1,
       geocode_address fallback_finds (text "12 Elm St") init = (Return result, w1)
       /\ let w2 := resolve_each fallback_finds [text " 9 Oak Ave"; PyOther 85001] w1 in
          geocode_address fallback_finds (text "12 Elm St") w2 = (Return result, w2).
Proof.
  split; [reflexivity|].
  destruct (cleaned_address_resolved_once fallback_finds "12 Elm St"
              [text " 9 Oak Ave"; PyOther 85001] init eq_refl)
    as (result & w1 & events & Hrun & _ & _ & _ & _ & Hagain).
  - repeat constructor; intros H; vm_compute in H; discriminate H.
  - exists result, w1. split; [exact Hrun | exact Hagain].
Defined.

(** C4 fails on the code: a padded address that could not be resolved is
    cached under its cleaned form, not found on the next call, and asked
    again; the second call can even return a coordinate. *)
Theorem padded_address_retried :
  let first := geocode_address found_later (text " 12 Elm St") init in
  let second := geocode_address found_later (text " 12 Elm St") (snd first) in
  fst first = Return None
  /\ trace (snd first) = [GetNominatim "12 Elm St"; GetCensus "12 Elm St"]
  /\ geocoding_cache (snd first) !! "12 Elm St" = Some None
  /\ geocoding_cache (snd first) !! " 12 Elm St" = None
  /\ fst second = Return (Some (35, -110))
  /\ trace (snd second)
     = [GetNominatim "12 Elm St"; GetCensus "12 Elm St";
        GetNominatim "12 Elm St"; Sleep 1].
Proof. vm_compute. repeat split. Qed.



(** C8 fails on the code: the archive is published in EPSG:4269; read by
    [load_tribal_boundaries] it is reprojected to EPSG:4326, downloaded
    from inside [check_tribal_land] it is stored as it came. *)
Theorem lazy_download_not_reprojected :
  crs archive = Some "EPSG:4269"
  /\ "EPSG:4269" <> EPSG_4326
  /\ tribal_boundaries (snd (check_tribal_land unknown_everywhere 35 (-110) init))
     = Some {| crs := Some "EPSG:4269"; features := [reservation] |}
  /\ (crs <$> tribal_boundaries (snd (load_tribal_boundaries unknown_everywhere tiger_url init)))
     = Some (Some EPSG_4326)
  /\ (map geometry <$> (features <$>
        tribal_boundaries (snd (load_tribal_boundaries unknown_everywhere tiger_url init))))
     = Some [shift square; shift square].
Proof. split_and!; try reflexivity. discriminate. Qed.

(** C9 fails on the code: the pause follows a request to the primary
    service only when that request gave a usable result; when it gave an
    empty list (whether or not the fallback then succeeds) or failed, the
    method returns without pausing. *)
Theorem no_pause_without_primary_match :
  geocode_address fallback_finds (text "12 Elm St") init
  = (Return (Some (35, -110)),
     {| tribal_boundaries := None;
        geocoding_cache := {[ "12 Elm St" := Some (35, -110) ]};
        trace := [GetNominatim "12 Elm St"; GetCensus "12 Elm St"] |})
  /\ trace (snd (geocode_address unknown_everywhere (text "12 Elm St") init))
     = [GetNominatim "12 Elm St"; GetCensus "12 Elm St"]
  /\ trace (snd (geocode_address primary_down (text "12 Elm St") init))
     = [GetNominatim "12 Elm St"]
  /\ trace (snd (geocode_address primary_finds (text "12 Elm St") init))
     = [GetNominatim "12 Elm St"; Sleep 1].
Proof. split_and!; reflexivity. Qed.

(** C10, for a padded address on a fresh checker. *)
Lemma cache_keyed_witness :
  keys_trimmed (geocoding_cache (init : world Z Planar.Polygon))
  /\ exists result w',
       geocode_address fallback_finds (text " 12 Elm St ") init = (Return result, w')
       /\ cache_get (text " 12 Elm St ") (geocoding_cache w') = None
       /\ geocode_address fallback_finds (text "12 Elm St") w' = (Return result, w').
Proof.
  split; [apply keys_trimmed_empty|].
  destruct (cache_keyed_by_cleaned_address fallback_finds (text " 12 Elm St ") init
              keys_trimmed_empty)
    as (result & w' & Hrun & _ & _ & _ & Hpadded & Hclean).
  exists result, w'. split; [exact Hrun|]. split; [|exact Hclean].
  apply (Hpadded " 12 Elm St " eq_refl). vm_compute. discriminate.
Defined.

End Runs.

(* ===================================================================== *)
(** ** Choosing the address column: facts *)
(* ===================================================================== *)

Section ColumnFacts.
Import Columns.

Lemma append_cons c s t : String.append (String c s) t = String c (String.append s t).
Proof. reflexivity. Qed.

Lemma append_nil_l s : String.append "" s = s.
Proof. reflexivity. Qed.

Lemma append_nil_r s : String.append s "" = s.
Proof. induction s as [|c s IH]; [reflexivity|]. rewrite append_cons, IH. reflexivity. Qed.

Lemma append_assoc s t u :
  String.append (String.append s t) u = String.append s (String.append t u).
Proof.
  induction s as [|c s IH]; [reflexivity|]. rewrite !append_cons, IH. reflexivity.
Qed.

Lemma lower_append s t : lower (String.append s t) = String.append (lower s) (lower t).
Proof.
  induction s as [|c s IH]; [reflexivity|].
  rewrite append_cons. simpl. rewrite IH, append_cons. reflexivity.
Qed.

Lemma lower_char_idem c : lower_char (lower_char c) = lower_char c.
Proof.
  destruct c as [[] [] [] [] [] [] [] []]; reflexivity.
Qed.

Lemma lower_idem s : lower (lower s) = lower s.
Proof.
  induction s as [|c s IH]; [reflexivity|]. simpl. rewrite lower_char_idem, IH. reflexivity.
Qed.

Lemma startswith_prefix s p :
  startswith s p = true <-> exists rest, s = String.append p rest.
Proof.
  revert s. induction p as [|c p IH]; intros s; simpl.
  - split; [intros _; exists s; reflexivity | reflexivity].
  - destruct s as [|d s].
    + split; [discriminate | intros [rest H]; rewrite append_cons in H; discriminate].
    + rewrite andb_true_iff, Ascii.eqb_eq, IH. split.
      * intros [-> [rest ->]]. exists rest. reflexivity.
      * intros [rest H]. rewrite append_cons in H. injection H as -> ->. eauto.
Qed.

(** [needle in hay] holds exactly when [needle] occurs in [hay]. *)
Lemma py_in_occurs needle hay : py_in needle hay = true <-> occurs needle hay.
Proof.
  unfold occurs. induction hay as [|c hay IH].
  - simpl. rewrite orb_false_r, startswith_prefix. split.
    + intros [rest H]. exists "", rest. exact H.
    + intros (before & after & H). destruct before; [|rewrite append_cons in H; discriminate].
      exists after. exact H.
  - change (py_in needle (String c hay))
      with (startswith (String c hay) needle || py_in needle hay).
    rewrite orb_true_iff, startswith_prefix, IH. split.
    + intros [[rest H]|(before & after & H)].
      * exists "", rest. exact H.
      * exists (String c before), after. rewrite append_cons, H. reflexivity.
    + intros (before & after & H). destruct before as [|d before].
      * left. exists after. exact H.
      * right. rewrite append_cons in H. injection H as -> ->. eauto.
Qed.

Lemma occurs_trans a b hay : occurs a b -> occurs b hay -> occurs a hay.
Proof.
  intros (p1 & q1 & ->) (p2 & q2 & ->).
  exists (String.append p2 p1), (String.append q1 q2).
  rewrite !append_assoc. reflexivity.
Qed.

Lemma py_in_trans a b hay :
  py_in a b = true -> py_in b hay = true -> py_in a hay = true.
Proof. rewrite !py_in_occurs. apply occurs_trans. Qed.

(** X1. The seven names come down to two tests: a column name looks like
    an address column exactly when, in lower case, it has "address" or
    "location" somewhere in it; so the test does not depend on the case
    of the letters. *)
Theorem looks_like_address_iff col :
  (looks_like_address col = true <->
   occurs "address" (lower col) \/ occurs "location" (lower col))
  /\ looks_like_address (lower col) = looks_like_address col.
Proof.
  assert (Hiff : forall c, looks_like_address c = true <->
                 occurs "address" (lower c) \/ occurs "location" (lower c)).
  { intros c. unfold looks_like_address, possible_names. simpl existsb.
    change (lower "address") with "address". change (lower "Address") with "address".
    change (lower "ADDRESS") with "address".
    change (lower "Street Address") with "street address".
    change (lower "Property Address") with "property address".
    change (lower "Full Address") with "full address".
    change (lower "Location") with "location".
    rewrite !orb_true_iff, <- !py_in_occurs. split.
    - intros [H|[H|[H|[H|[H|[H|[H|H]]]]]]]; auto; try discriminate;
        left; (eapply py_in_trans; [|exact H]); reflexivity.
    - intros [H|H]; auto 10. }
  split; [apply Hiff|].
  apply eq_true_iff_eq. rewrite !Hiff, lower_idem. reflexivity.
Qed.

(** X2. The search over the column labels stops at the first text label
    that looks like an address column; it ends without a column when all
    labels are text and none looks like one; and it raises on the first
    label that is not text, if no earlier label was chosen. *)
Theorem auto_detect_first {other} (columns : list (label other)) :
  match auto_detect columns with
  | inr (Some chosen) =>
      exists before col after,
        chosen = Text col
        /\ columns = map Text before ++ Text col :: after
        /\ Forall (fun s => looks_like_address s = false) before
        /\ looks_like_address col = true
  | inr None =>
      exists names,
        columns = map Text names
        /\ Forall (fun s => looks_like_address s = false) names
  | inl e =>
      e = AttributeError
      /\ exists before o after,
           columns = map Text before ++ NotText o :: after
           /\ Forall (fun s => looks_like_address s = false) before
  end.
Proof.
  induction columns as [|[col|o] columns IH]; simpl.
  - exists []. auto.
  - destruct (looks_like_address col) eqn:Hcol.
    + exists [], col, columns. auto.
    + destruct (auto_detect columns) as [e|[chosen|]].
      * destruct IH as (-> & before & o & after & -> & Hb).
        split; [reflexivity|]. exists (col :: before), o, after. auto.
      * destruct IH as (before & c & after & -> & -> & Hb & Hc).
        exists (col :: before), c, after. auto.
      * destruct IH as (names & -> & Hn). exists (col :: names). auto.
  - split; [reflexivity|]. exists [], o, columns. auto.
Qed.

(** X3. When no column is given and none is found, the number typed
    picks the column: from the front when it is not negative, from the end
    when it is negative, and out of range it raises [IndexError]; text
    that is not a number raises [ValueError]. A column given by the caller
    is taken as it is, and a column found is taken without asking. *)
Theorem prompted_column {other} (columns : list (label other)) (given : label other)
    (reply : option Z) (idx : Z) :
  let n := Z.of_nat (length columns) in
  choose_address_column (Some given) columns reply = inr given
  /\ (forall found, auto_detect columns = inr (Some found) ->
        choose_address_column None columns reply = inr found)
  /\ (auto_detect columns = inr None ->
      choose_address_column None columns None = inl ValueError
      /\ (0 <= idx < n ->
          exists c, columns !! Z.to_nat idx = Some c
                    /\ choose_address_column None columns (Some idx) = inr c)%Z
      /\ (- n <= idx < 0 ->
          exists c, columns !! Z.to_nat (n + idx) = Some c
                    /\ choose_address_column None columns (Some idx) = inr c)%Z
      /\ (idx < - n \/ n <= idx ->
          choose_address_column None columns (Some idx) = inl IndexError)%Z).
Proof.
  intros n. split; [reflexivity|]. split.
  - intros found H. unfold choose_address_column. rewrite H. reflexivity.
  - intros H. unfold choose_address_column, getitem. rewrite H. fold n.
    split; [reflexivity|]. split_and!.
    + intros Hidx.
      destruct (Z.ltb_spec idx 0); [lia|].
      destruct (Z.leb_spec 0 idx); [|lia]. destruct (Z.ltb_spec idx n); [|lia]. simpl.
      destruct (lookup_lt_is_Some_2 columns (Z.to_nat idx)) as [c Hc]; [lia|].
      exists c. rewrite Hc. auto.
    + intros Hidx.
      destruct (Z.ltb_spec idx 0); [|lia].
      destruct (Z.leb_spec 0 (idx + n)); [|lia].
      destruct (Z.ltb_spec (idx + n) n); [|lia]. simpl.
      destruct (lookup_lt_is_Some_2 columns (Z.to_nat (idx + n))) as [c Hc]; [lia|].
      exists c. rewrite Z.add_comm, Hc. auto.
    + intros Hidx.
      destruct (Z.ltb_spec idx 0).
      * destruct (Z.leb_spec 0 (idx + n)); [lia|]. reflexivity.
      * destruct (Z.leb_spec 0 idx); [|lia]. destruct (Z.ltb_spec idx n); [lia|]. reflexivity.
Qed.

End ColumnFacts.

(* ===================================================================== *)
(** ** Loading, downloading and creating the checker: facts *)
(* ===================================================================== *)

Section StoreFacts.
Import Strip Checker Driver.
Context {num other G : Type} (E : outside num other G).
Implicit Types (w : world num G) (gdf : GeoDataFrame G).

Lemma iterrows_within_existsb (point : Point num) (l : list (Boundary G)) start :
  bool_decide (is_Some (iterrows_within E point start l))
  = existsb (fun b => contains E (geometry b) point) l.
Proof.
  revert start. induction l as [|b l IH]; intros start; simpl.
  - reflexivity.
  - destruct (contains E (geometry b) point); simpl; [reflexivity | apply IH].
Qed.

(** With a frame in the store, the answer is read off that frame and
    nothing changes. *)
Lemma check_tribal_land_within w gdf lat lon :
  tribal_boundaries w = Some gdf ->
  check_tribal_land E lat lon w = (Return (within_any E gdf lat lon), w).
Proof.
  intros H. rewrite (check_tribal_land_loaded E w gdf lat lon H).
  rewrite iterrows_within_existsb. reflexivity.
Qed.

Lemma all_space_lstrip s : all_space s = true -> lstrip s = "".
Proof.
  induction s as [|c s IH]; simpl; [reflexivity|].
  rewrite andb_true_iff. intros [-> H]. auto.
Qed.

Lemma not_all_space_lstrip s :
  all_space s = false -> exists c t, lstrip s = String c t /\ isspace c = false.
Proof.
  induction s as [|c s IH]; simpl; [discriminate|].
  destruct (isspace c) eqn:Hc; simpl; [exact IH | eauto].
Qed.

(** [strip] gives the empty string exactly on whitespace-only strings. *)
Lemma strip_empty_iff s : strip s = "" <-> all_space s = true.
Proof.
  unfold strip. destruct (all_space s) eqn:Hs.
  - rewrite (all_space_lstrip s Hs). split; reflexivity.
  - destruct (not_all_space_lstrip s Hs) as (c & t & -> & Hc). simpl.
    destruct (rstrip t); rewrite ?Hc; split; discriminate.
Qed.

(** X4. In [main], the boundaries are loaded from a file exactly when the
    answer to the question is "y" in either case and the path typed has
    something other than whitespace in it; then the file named by the
    stripped path is loaded. Otherwise, and in particular when only Enter
    is pressed at the path prompt, the checker starts with no boundaries
    and nothing is read. Whenever the checker is created, its cache is
    empty and its boundaries are absent or in EPSG:4326. *)
Theorem main_checker_loads_iff (answer typed_path : string) :
  (Columns.lower answer <> "y" \/ all_space typed_path = true ->
   main_checker E answer typed_path = (Return tt, init))
  /\ (Columns.lower answer = "y" -> all_space typed_path = false ->
      main_checker E answer typed_path = load_tribal_boundaries E (strip typed_path) init
      /\ trace (snd (main_checker E answer typed_path)) = [ReadFile (strip typed_path)])
  /\ (forall w', main_checker E answer typed_path = (Return tt, w') ->
        geocoding_cache w' = ∅
        /\ (tribal_boundaries w' = None
            \/ exists gdf, tribal_boundaries w' = Some gdf /\ crs gdf = Some EPSG_4326)).
Proof.
  assert (Hno : Columns.lower answer <> "y" \/ all_space typed_path = true ->
                main_checker E answer typed_path = (Return tt, init)).
  { unfold main_checker, TribalLandChecker. intros [H|H].
    - rewrite bool_decide_eq_false_2 by exact H. reflexivity.
    - case_bool_decide; [|reflexivity].
      rewrite bool_decide_eq_true_2; [reflexivity|]. apply strip_empty_iff, H. }
  assert (Hyes : Columns.lower answer = "y" -> all_space typed_path = false ->
                 main_checker E answer typed_path
                 = load_tribal_boundaries E (strip typed_path) init).
  { unfold main_checker, TribalLandChecker. intros Hy Hs.
    rewrite bool_decide_eq_true_2 by exact Hy.
    rewrite bool_decide_eq_false_2; [reflexivity|].
    rewrite strip_empty_iff, Hs. discriminate. }
  split; [exact Hno|]. split.
  - intros Hy Hs. split; [apply Hyes; assumption|].
    rewrite (Hyes Hy Hs).
    unfold load_tribal_boundaries, gpd_read_file, set_tribal_boundaries, to_crs,
      raise, mbind, mret, M_bind, M_ret. simpl.
    destruct (read_file E 0 (strip typed_path)) as [gdf|]; [|reflexivity].
    simpl. case_bool_decide; [reflexivity|]. destruct (crs gdf); reflexivity.
  - intros w' Hrun.
    destruct (decide (Columns.lower answer = "y")) as [Hy|Hy];
      [destruct (all_space typed_path) eqn:Hs|].
    + rewrite Hno in Hrun by auto. injection Hrun as <-. auto.
    + rewrite (Hyes Hy eq_refl) in Hrun.
      destruct (load_tribal_boundaries_reprojects E _ _ _ Hrun) as (gdf & Hb & Hc).
      split; [|eauto].
      revert Hrun.
      unfold load_tribal_boundaries, gpd_read_file, set_tribal_boundaries, to_crs,
        raise, mbind, mret, M_bind, M_ret. simpl.
      destruct (read_file E 0 (strip typed_path)) as [g|]; [|discriminate].
      simpl. case_bool_decide; [intros [= <-]; reflexivity|].
      destruct (crs g); [intros [= <-]; reflexivity | discriminate].
    + rewrite Hno in Hrun by auto. injection Hrun as <-. auto.
Qed.

(** X5. When [load_tribal_boundaries] returns, the file was read once,
    the cache is untouched, and the store holds the rows of the file in
    EPSG:4326: the same rows with the same [GEOID]s and [NAME]s, the frame
    itself if it was in EPSG:4326 already, and otherwise every geometry
    reprojected from the file's reference system. From then on
    [check_tribal_land] answers from that frame and never downloads. *)
Theorem load_then_classify path w w' :
  load_tribal_boundaries E path w = (Return tt, w') ->
  exists gdf gdf',
    read_file E (length (trace w)) path = Some gdf
    /\ tribal_boundaries w' = Some gdf'
    /\ crs gdf' = Some EPSG_4326
    /\ map GEOID (features gdf') = map GEOID (features gdf)
    /\ map NAME (features gdf') = map NAME (features gdf)
    /\ (crs gdf = Some EPSG_4326 -> gdf' = gdf)
    /\ (forall c, crs gdf = Some c -> c <> EPSG_4326 ->
          map geometry (features gdf')
          = map (fun b => reproject E c EPSG_4326 (geometry b)) (features gdf))
    /\ geocoding_cache w' = geocoding_cache w
    /\ trace w' = trace w ++ [ReadFile path]
    /\ forall lat lon,
         check_tribal_land E lat lon w' = (Return (within_any E gdf' lat lon), w').
Proof.
  unfold load_tribal_boundaries, gpd_read_file, set_tribal_boundaries, to_crs,
    raise, mbind, mret, M_bind, M_ret.
  destruct (read_file E (length (trace w)) path) as [gdf|]; [|discriminate].
  simpl. case_bool_decide as Hcrs.
  - intros [= <-]. exists gdf, gdf. simpl. split_and!; auto; [congruence|].
    intros lat lon. apply check_tribal_land_within. reflexivity.
  - destruct (crs gdf) as [c|] eqn:Hc; [|discriminate].
    intros [= <-]. eexists gdf, _. cbn [tribal_boundaries geocoding_cache trace].
    split_and!; try reflexivity; cbn [features crs].
    + rewrite map_map. reflexivity.
    + rewrite map_map. reflexivity.
    + intros H. congruence.
    + intros c' Hc' _. rewrite Hc in Hc'. injection Hc' as <-.
      rewrite map_map. reflexivity.
    + intros lat lon. apply check_tribal_land_within. reflexivity.
Qed.

(** X6. [load_tribal_boundaries] raises in two cases only. When the file
    cannot be read the store is as before. When the file has no reference
    system the exception comes after the frame was stored: the store then
    holds the rows as read, and [check_tribal_land] answers from them
    without downloading. In both cases the cache is untouched. *)
Theorem load_failure path w e w' :
  load_tribal_boundaries E path w = (Raise e, w') ->
  trace w' = trace w ++ [ReadFile path]
  /\ geocoding_cache w' = geocoding_cache w
  /\ ((e = ReadError
       /\ read_file E (length (trace w)) path = None
       /\ tribal_boundaries w' = tribal_boundaries w)
      \/ (e = CrsError
          /\ exists gdf,
               read_file E (length (trace w)) path = Some gdf
               /\ crs gdf = None
               /\ tribal_boundaries w' = Some gdf
               /\ forall lat lon,
                    check_tribal_land E lat lon w'
                    = (Return (within_any E gdf lat lon), w'))).
Proof.
  unfold load_tribal_boundaries, gpd_read_file, set_tribal_boundaries, to_crs,
    raise, mbind, mret, M_bind, M_ret.
  destruct (read_file E (length (trace w)) path) as [gdf|].
  - simpl. case_bool_decide as Hcrs; [discriminate|].
    destruct (crs gdf) as [c|] eqn:Hc; [discriminate|].
    intros [= <- <-]. simpl. split_and!; auto.
    right. split; [reflexivity|]. exists gdf. split_and!; auto.
    intros lat lon. apply check_tribal_land_within. reflexivity.
  - intros [= <- <-]. simpl. auto 10.
Qed.

(** X7. When [check_tribal_land] returns, it either changed nothing or,
    the store being empty, downloaded the archive once; the cache is
    untouched; and from then on every call answers from the frame in the
    store and changes nothing, so the archive is not downloaded again. *)
Theorem download_happens_once w lat lon answer w1 :
  check_tribal_land E lat lon w = (Return answer, w1) ->
  (w1 = w \/ (tribal_boundaries w = None /\ trace w1 = trace w ++ [ReadFile tiger_url]))
  /\ geocoding_cache w1 = geocoding_cache w
  /\ exists gdf,
       tribal_boundaries w1 = Some gdf
       /\ answer = within_any E gdf lat lon
       /\ forall lat' lon',
            check_tribal_land E lat' lon' w1 = (Return (within_any E gdf lat' lon'), w1).
Proof.
  destruct (tribal_boundaries w) as [gdf|] eqn:Hb.
  - rewrite (check_tribal_land_within w gdf lat lon Hb). intros [= <- <-].
    split_and!; auto. exists gdf. split_and!; auto.
    intros lat' lon'. apply check_tribal_land_within, Hb.
  - destruct (read_file E (length (trace w)) tiger_url) as [gdf|] eqn:Hread.
    + rewrite (check_tribal_land_lazy E w gdf lat lon Hb Hread).
      rewrite iterrows_within_existsb. intros [= <- <-]. simpl.
      split_and!; auto. eexists. split_and!; try reflexivity.
      intros lat' lon'. apply check_tribal_land_within. reflexivity.
    + rewrite (check_tribal_land_fatal E w lat lon Hb Hread). discriminate.
Qed.

(** X9. After the lazy download only the rows of the archive that have a
    [GEOID] count: the answer is [True] exactly when such a row contains
    the point, and the store holds those rows only, in the reference
    system of the archive. (A file loaded with [load_tribal_boundaries]
    keeps all its rows.) *)
Theorem lazy_download_needs_geoid w gdf lat lon :
  tribal_boundaries w = None ->
  read_file E (length (trace w)) tiger_url = Some gdf ->
  exists answer w' kept,
    check_tribal_land E lat lon w = (Return answer, w')
    /\ (answer = true <->
        exists b, In b (features gdf) /\ is_Some (GEOID b)
                  /\ contains E (geometry b) {| x := lon; y := lat |} = true)
    /\ tribal_boundaries w' = Some kept
    /\ crs kept = crs gdf
    /\ (forall b, In b (features kept) <-> In b (features gdf) /\ is_Some (GEOID b)).
Proof.
  intros Hb Hread.
  eexists _, _, _. split; [apply (check_tribal_land_lazy E w gdf lat lon Hb Hread)|].
  split_and!; try reflexivity; cbn [features crs].
  - rewrite bool_decide_eq_true, iterrows_within_some_contains.
    split; intros (b & Hin & H).
    + apply filter_In in Hin. destruct Hin as [Hin Hg].
      apply bool_decide_eq_true in Hg. eauto.
    + destruct H as [Hg Hc]. exists b. split; [|exact Hc].
      apply filter_In. split; [exact Hin|]. apply bool_decide_eq_true, Hg.
  - intros b. rewrite filter_In, bool_decide_eq_true. reflexivity.
Qed.

End StoreFacts.

(* ===================================================================== *)
(** ** The resolver and the batch: what a run does and what it costs *)
(* ===================================================================== *)

Section RunFacts.
Import Strip Checker Driver.
Context {num other G : Type} (E : outside num other G).
Implicit Types (w : world num G) (gdf : GeoDataFrame G)
  (df done : list (row num other)) (sheet pending : list (cell other)).

(** X10. [geocode_address] never raises and never touches the
    boundaries. It causes events exactly when the address, as given, is
    not in the cache; they are requests for the cleaned address and the
    pause, nothing else. Only the cache entry of the cleaned address can
    change, and no entry is ever removed. *)
Theorem geocode_address_frame (address : pyobj other) w :
  let q := strip (str E address) in
  exists result w' events,
    geocode_address E address w = (Return result, w')
    /\ tribal_boundaries w' = tribal_boundaries w
    /\ trace w' = trace w ++ events
    /\ Forall (fun e => e = GetNominatim q \/ e = GetCensus q \/ e = Sleep 1) events
    /\ (events = [] <-> is_Some (cache_get address (geocoding_cache w)))
    /\ (forall k, k <> q -> geocoding_cache w' !! k = geocoding_cache w !! k)
    /\ (forall k, is_Some (geocoding_cache w !! k) -> is_Some (geocoding_cache w' !! k)).
Proof.
  intros q. destruct (cache_get address (geocoding_cache w)) as [cached|] eqn:Hget.
  - exists cached, w, []. rewrite app_nil_r.
    split; [apply geocode_address_hit, Hget|]. split_and!; auto.
    split; eauto.
  - pose proof (geocode_address_miss E address w Hget) as Hrun.
    fold q in Hrun. simpl in Hrun.
    set (a := miss_answer E (length (trace w)) q) in *.
    eexists _, _, (snd a). split; [exact Hrun|]. simpl.
    assert (Hev : snd a = [GetNominatim q] \/ snd a = [GetNominatim q; Sleep 1]
                  \/ snd a = [GetNominatim q; GetCensus q])
      by apply miss_answer_events.
    split_and!; auto.
    + destruct Hev as [->|[->| ->]];
        repeat first [apply List.Forall_nil | apply List.Forall_cons; [auto|]].
    + split; [|intros [? ?]; discriminate].
      destruct Hev as [->|[->| ->]]; discriminate.
    + intros k Hk. apply lookup_insert_ne. congruence.
    + intros k Hk. destruct (decide (q = k)) as [<-|Hne].
      * rewrite lookup_insert_eq. eauto.
      * rewrite lookup_insert_ne by exact Hne. exact Hk.
Qed.

(** X11. Of what the primary service returns only the first result
    counts. If it is usable the address is resolved to it, after a pause;
    if its latitude or longitude is missing or not a number the address
    fails, whatever the further results are. In both cases the fallback
    service is not asked. *)
Theorem only_first_result_counts (address : pyobj other) w hit data :
  cache_get address (geocoding_cache w) = None ->
  let q := strip (str E address) in
  nominatim E (length (trace w)) q = NominatimJson (hit :: data) ->
  exists result w',
    geocode_address E address w = (Return result, w')
    /\ result = match hit_lat hit, hit_lon hit with
                | Some lat, Some lon => Some (lat, lon)
                | _, _ => None
                end
    /\ geocoding_cache w' = <[q := result]> (geocoding_cache w)
    /\ trace w' = trace w ++ GetNominatim q :: match result with
                                               | Some _ => [Sleep 1]
                                               | None => []
                                               end.
Proof.
  intros Hmiss q Hn.
  pose proof (geocode_address_miss E address w Hmiss) as Hrun.
  fold q in Hrun. simpl in Hrun. unfold miss_answer in Hrun. rewrite Hn in Hrun.
  eexists _, _. split; [exact Hrun|].
  destruct (hit_lat hit), (hit_lon hit); simpl; auto.
Qed.

(** X12. A text address of whitespace only (not the empty text) is never
    found in a cache whose keys are cleaned strings: the primary service
    is asked for the empty address, and the answer is stored under the
    empty key. *)
Theorem blank_text_asks_for_empty_address (s : string) w :
  keys_trimmed (geocoding_cache w) ->
  all_space s = true -> s <> "" ->
  exists result w' later,
    geocode_address E (PyStr s) w = (Return result, w')
    /\ trace w' = trace w ++ GetNominatim "" :: later
    /\ geocoding_cache w' !! "" = Some result.
Proof.
  intros Hkeys Hs Hne.
  assert (Hstrip : strip s = "") by (apply strip_empty_iff, Hs).
  assert (Hmiss : cache_get (PyStr (other := other) s) (geocoding_cache w) = None).
  { apply cache_get_untrimmed; [exact Hkeys|]. unfold trimmed. congruence. }
  pose proof (geocode_address_miss E _ w Hmiss) as Hrun. simpl in Hrun.
  rewrite Hstrip in Hrun.
  set (a := miss_answer E (length (trace w)) "") in *.
  eexists _, _, (tl (snd a)). split; [exact Hrun|]. simpl. split.
  - f_equal. subst a.
    destruct (miss_answer_events E (length (trace w)) "") as [->|[->| ->]]; reflexivity.
  - apply lookup_insert_eq.
Qed.

(** One turn of the loop, step by step. *)
Lemma process_row_steps idx (c : cell other) df w :
  match c with
  | Missing => exists df', process_row E idx c df w = (Return df', w)
  | Value a =>
      exists coords w1,
        geocode_address E a w = (Return coords, w1)
        /\ match coords with
           | None => exists df', process_row E idx c df w = (Return df', w1)
           | Some (lat, lon) =>
               match check_tribal_land E lat lon w1 with
               | (Return _, w2) => exists df', process_row E idx c df w = (Return df', w2)
               | (Raise e, w2) => process_row E idx c df w = (Raise e, w2)
               end
           end
  end.
Proof.
  destruct c as [|a]; simpl; [eexists; reflexivity|].
  destruct (geocode_address_returns E a w) as (coords & w1 & Hrun & _).
  exists coords, w1. split; [exact Hrun|].
  unfold mbind, M_bind. rewrite Hrun.
  destruct coords as [[lat lon]|]; [|eexists; reflexivity].
  destruct (check_tribal_land E lat lon w1) as [[answer|e] w2]; [eexists|]; reflexivity.
Qed.

(** What holds before the loop and is kept by the two methods holds
    after it; if the loop is left by an exception, what holds is what the
    raising call of [check_tribal_land] leaves. *)
Lemma for_each_row_outcome (P : world num G -> Prop) (Q : exn -> world num G -> Prop) :
  (forall a w, P w -> P (snd (geocode_address E a w))) ->
  (forall lat lon w, P w ->
     match check_tribal_land E lat lon w with
     | (Return _, w') => P w'
     | (Raise e, w') => Q e w'
     end) ->
  forall todo df w, P w ->
    match for_each_row E todo df w with
    | (Return _, w') => P w'
    | (Raise e, w') => Q e w'
    end.
Proof.
  intros Hgeo Hchk. induction todo as [|[idx c] todo IH]; intros df w HP.
  - exact HP.
  - rewrite for_each_row_cons.
    pose proof (process_row_steps idx c df w) as Hstep.
    destruct c as [|a].
    + destruct Hstep as [df' ->]. apply IH, HP.
    + destruct Hstep as (coords & w1 & Hrun & Hstep).
      assert (HP1 : P w1) by (specialize (Hgeo a w HP); rewrite Hrun in Hgeo; exact Hgeo).
      destruct coords as [[lat lon]|].
      * specialize (Hchk lat lon w1 HP1).
        destruct (check_tribal_land E lat lon w1) as [[answer|e] w2].
        -- destruct Hstep as [df' ->]. apply IH, Hchk.
        -- rewrite Hstep. exact Hchk.
      * destruct Hstep as [df' ->]. apply IH, HP1.
Qed.

Lemma tally_app kind (l1 l2 : list event) :
  tally kind (l1 ++ l2) = tally kind l1 + tally kind l2.
Proof. unfold tally. rewrite List.filter_app, length_app. reflexivity. Qed.


Lemma check_step_cost lat lon w :
  exists events,
    trace (snd (check_tribal_land E lat lon w)) = trace w ++ events
    /\ tally to_nominatim events = 0
    /\ tally to_census events = 0
    /\ tally is_sleep events = 0
    /\ tally is_read events <= 1
    /\ (is_Some (tribal_boundaries w) -> events = [])
    /\ match fst (check_tribal_land E lat lon w) with
       | Return _ => is_Some (tribal_boundaries (snd (check_tribal_land E lat lon w)))
       | Raise _ => True
       end.
Proof.
  destruct (tribal_boundaries w) as [gdf|] eqn:Hb.
  - rewrite (check_tribal_land_loaded E w gdf lat lon Hb). exists []. simpl.
    rewrite app_nil_r, Hb. unfold tally. simpl. split_and!; eauto.
  - destruct (read_file E (length (trace w)) tiger_url) as [gdf|] eqn:Hread.
    + rewrite (check_tribal_land_lazy E w gdf lat lon Hb Hread). simpl.
      eexists. split; [reflexivity|]. unfold tally. simpl.
      split_and!; eauto. intros [? ?]. discriminate.
    + rewrite (check_tribal_land_fatal E w lat lon Hb Hread). simpl.
      eexists. split; [reflexivity|]. unfold tally. simpl.
      split_and!; eauto. intros [? ?]. discriminate.
Qed.

(** X15. If the keys of the cache are cleaned strings and every request
    made so far carried a cleaned address, the same holds after a batch,
    however it ends: the services are never sent an address with
    surrounding whitespace. *)
Theorem batch_sends_cleaned_addresses sheet w :
  keys_trimmed (geocoding_cache w) ->
  Forall (fun e => forall q, query e = Some q -> trimmed q) (trace w) ->
  let w' := snd (process_excel E sheet w) in
  keys_trimmed (geocoding_cache w')
  /\ Forall (fun e => forall q, query e = Some q -> trimmed q) (trace w').
Proof.
  intros Hkeys Hsent.
  pose (P := fun w1 : world num G =>
               keys_trimmed (geocoding_cache w1)
               /\ Forall (fun e => forall q, query e = Some q -> trimmed q) (trace w1)).
  assert (H : match process_excel E sheet w with
              | (Return _, w1) => P w1
              | (Raise e1, w1) => P w1
              end).
  { unfold process_excel.
    apply (for_each_row_outcome P (fun _ => P)); [| |split; assumption].
    - intros a w1 [Hk Hs]. unfold P.
      destruct (cache_get a (geocoding_cache w1)) as [cached|] eqn:Hget.
      + rewrite (geocode_address_hit E a w1 cached Hget). auto.
      + rewrite (geocode_address_miss E a w1 Hget). simpl. split.
        * apply keys_trimmed_insert; [apply strip_trimmed | exact Hk].
        * apply Forall_app. split; [exact Hs|].
          destruct (miss_answer_events E (length (trace w1)) (strip (str E a)))
            as [->|[->| ->]];
            repeat first [apply List.Forall_nil | apply List.Forall_cons];
            simpl; intros q Hq; try discriminate;
            injection Hq as <-; apply strip_trimmed.
    - intros lat lon w1 [Hk Hs]. unfold P.
      destruct (tribal_boundaries w1) as [gdf|] eqn:Hb.
      + rewrite (check_tribal_land_loaded E w1 gdf lat lon Hb). auto.
      + destruct (read_file E (length (trace w1)) tiger_url) as [gdf|] eqn:Hread.
        * rewrite (check_tribal_land_lazy E w1 gdf lat lon Hb Hread). simpl.
          split; [exact Hk|]. apply Forall_app. split; [exact Hs|].
          repeat constructor. discriminate.
        * rewrite (check_tribal_land_fatal E w1 lat lon Hb Hread). simpl.
          split; [exact Hk|]. apply Forall_app. split; [exact Hs|].
          repeat constructor. discriminate. }
  simpl. destruct (process_excel E sheet w) as [[df|e] w1]; exact H.
Qed.

Lemma no_data_count df :
  Forall classified df ->
  count_label "No Data" df = length (List.filter is_missing (map address_cell df)).
Proof.
  unfold count_label. induction 1 as [|r df Hr _ IH]; [reflexivity|].
  cbn [map List.filter]. unfold classified in Hr.
  destruct (address_cell r); cbn [is_missing].
  - destruct Hr as (-> & _). rewrite bool_decide_eq_true_2 by reflexivity.
    cbn [length]. rewrite IH. reflexivity.
  - rewrite bool_decide_eq_false_2; [exact IH|].
    destruct Hr as [([->| ->] & _)|(-> & _)]; discriminate.
Qed.


Lemma check_keeps_cache lat lon w :
  geocoding_cache (snd (check_tribal_land E lat lon w)) = geocoding_cache w.
Proof.
  destruct (tribal_boundaries w) as [gdf|] eqn:Hb.
  - rewrite (check_tribal_land_loaded E w gdf lat lon Hb). reflexivity.
  - destruct (read_file E (length (trace w)) tiger_url) as [gdf|] eqn:Hread.
    + rewrite (check_tribal_land_lazy E w gdf lat lon Hb Hread). reflexivity.
    + rewrite (check_tribal_land_fatal E w lat lon Hb Hread). reflexivity.
Qed.

(** A cleaned text address costs a request exactly when it adds a key. *)
Lemma geocode_cleaned_text_cost (s : string) w :
  trimmed s ->
  exists events,
    trace (snd (geocode_address E (PyStr s) w)) = trace w ++ events
    /\ tally to_nominatim events + size (geocoding_cache w)
       = size (geocoding_cache (snd (geocode_address E (PyStr s) w)))
    /\ (forall k, is_Some (geocoding_cache (snd (geocode_address E (PyStr s) w)) !! k) ->
          is_Some (geocoding_cache w !! k) \/ k = s).
Proof.
  intros Hs.
  destruct (cache_get (PyStr (other := other) s) (geocoding_cache w)) as [cached|] eqn:Hget.
  - rewrite (geocode_address_hit E _ w cached Hget). exists []. simpl.
    rewrite app_nil_r. unfold tally. simpl. auto.
  - rewrite (geocode_address_miss E _ w Hget). simpl. rewrite Hs.
    eexists. split; [reflexivity|]. split.
    + rewrite map_size_insert_None by exact Hget.
      destruct (miss_answer_events E (length (trace w)) s) as [->|[->| ->]];
        unfold tally; simpl; reflexivity.
    + intros k Hk. destruct (decide (s = k)) as [<-|Hne]; [auto|].
      rewrite lookup_insert_ne in Hk by exact Hne. auto.
Qed.

Lemma for_each_row_cleaned (todo : list (nat * cell other)) : forall df w,
  Forall (fun c => c = Missing \/ exists s, c = Value (PyStr s) /\ trimmed s)
         (map snd todo) ->
  exists events,
    trace (snd (for_each_row E todo df w)) = trace w ++ events
    /\ tally to_nominatim events + size (geocoding_cache w)
       = size (geocoding_cache (snd (for_each_row E todo df w)))
    /\ (forall k, is_Some (geocoding_cache (snd (for_each_row E todo df w)) !! k) ->
          is_Some (geocoding_cache w !! k) \/ In (Value (PyStr k)) (map snd todo)).
Proof.
  induction todo as [|[idx c] todo IH]; intros df w Hall.
  - exists []. simpl. rewrite app_nil_r. unfold tally. simpl. auto.
  - cbn [map snd] in Hall. apply Forall_cons in Hall. destruct Hall as [Hc Hall].
    rewrite for_each_row_cons. cbn [map snd].
    pose proof (process_row_steps idx c df w) as Hstep.
    destruct Hc as [->|(s & -> & Hs)].
    + destruct Hstep as [df' ->].
      destruct (IH df' w Hall) as (ev & Ht & Hn & Hk).
      exists ev. split_and!; auto. intros k Hin. destruct (Hk k Hin); simpl; auto.
    + destruct Hstep as (coords & w1 & Hrun & Hstep).
      destruct (geocode_cleaned_text_cost s w Hs) as (ev1 & Ht1 & Hn1 & Hk1).
      rewrite Hrun in Ht1, Hn1, Hk1. simpl in Ht1, Hn1, Hk1.
      assert (Hfrom1 : forall k, is_Some (geocoding_cache w1 !! k) ->
                is_Some (geocoding_cache w !! k)
                \/ In (Value (PyStr k)) (Value (PyStr s) :: map snd todo)).
      { intros k Hin. destruct (Hk1 k Hin) as [?| ->]; simpl; auto. }
      destruct coords as [[lat lon]|].
      * destruct (check_step_cost lat lon w1) as (ev2 & Ht2 & Hn2 & _).
        pose proof (check_keeps_cache lat lon w1) as Hc2.
        destruct (check_tribal_land E lat lon w1) as [[answer|e] w2]; simpl in *.
        -- destruct Hstep as [df' ->].
           destruct (IH df' w2 Hall) as (ev3 & Ht3 & Hn3 & Hk3).
           exists (ev1 ++ ev2 ++ ev3).
           rewrite Ht3, Ht2, Ht1, <- !app_assoc, !tally_app.
           split_and!; auto; [rewrite <- Hn3, Hc2; lia|].
           intros k Hin. destruct (Hk3 k Hin) as [Hin2|?]; [|right; right; assumption].
           rewrite Hc2 in Hin2. auto.
        -- rewrite Hstep. simpl. exists (ev1 ++ ev2).
           rewrite Ht2, Ht1, <- !app_assoc, !tally_app, Hc2.
           split_and!; auto. lia.
      * destruct Hstep as [df' ->].
        destruct (IH df' w1 Hall) as (ev3 & Ht3 & Hn3 & Hk3).
        exists (ev1 ++ ev3). rewrite Ht3, Ht1, <- !app_assoc, !tally_app.
        split_and!; auto; [lia|].
        intros k Hin. destruct (Hk3 k Hin) as [Hin2|?]; [auto | right; right; assumption].
Qed.

Lemma iterrows_from_cells sheet : forall start,
  map snd (iterrows_from start (map (@blank_row num other) sheet)) = sheet.
Proof.
  induction sheet as [|c sheet IH]; intros start; [reflexivity|].
  cbn [map iterrows_from address_cell blank_row snd]. rewrite IH. reflexivity.
Qed.

(** X18. In a batch whose addresses are all text without surrounding
    whitespace, the primary service is asked once for each key the cache
    gains, and every key gained is an address of the sheet: an address
    that is repeated, or cached already, is not asked for again. *)
Theorem batch_asks_once_per_address sheet w :
  Forall (fun c => c = Missing \/ exists s, c = Value (PyStr s) /\ trimmed s) sheet ->
  let w' := snd (process_excel E sheet w) in
  exists events,
    trace w' = trace w ++ events
    /\ tally to_nominatim events + size (geocoding_cache w) = size (geocoding_cache w')
    /\ (forall k, is_Some (geocoding_cache w' !! k) ->
          is_Some (geocoding_cache w !! k) \/ In (Value (PyStr k)) sheet).
Proof.
  intros Hall. simpl. unfold process_excel, iterrows.
  destruct (for_each_row_cleaned (iterrows_from 0 (map (@blank_row num other) sheet))
              (map blank_row sheet) w) as (events & Ht & Hn & Hk).
  - rewrite iterrows_from_cells. exact Hall.
  - rewrite iterrows_from_cells in Hk. exists events. auto.
Qed.

End RunFacts.

(* ===================================================================== *)
(** ** Further runs on concrete inputs *)
(* ===================================================================== *)

Section MoreRuns.
Import Strip Checker Columns Driver Scenario Faults.
Open Scope Z_scope.

Abbreviation txt := (@PyStr Z) (only parsing).

Example headers_detected :
  map looks_like_address ["Mailing ADDRESS"; "Addr"; "Site Location"; "Name"; ""]
  = [true; false; true; false; false].
Proof. reflexivity. Qed.

Example first_header_wins :
  auto_detect [Text "Name"; Text "Billing address"; Text "Location"; NotText 2024]
  = inr (Some (Text "Billing address")).
Proof. reflexivity. Qed.

Example number_header_raises :
  auto_detect [Text "Name"; NotText 2024; Text "Address"] = inl AttributeError.
Proof. reflexivity. Qed.

Example last_column_by_minus_one :
  choose_address_column None [Text "Name"; Text "Street" : label Z] (Some (-1))
  = inr (Text "Street").
Proof. reflexivity. Qed.

(** X5, on the archive read from a local file. *)
Lemma load_then_classify_witness :
  exists w',
    load_tribal_boundaries unknown_everywhere "aiannh.shp" init = (Return tt, w')
    /\ check_tribal_land unknown_everywhere 35 (-110) w' = (Return true, w')
    /\ check_tribal_land unknown_everywhere 35 (-115) w' = (Return false, w')
    /\ check_tribal_land unknown_everywhere 35 (-104) w' = (Return false, w').
Proof.
  eexists. split; [reflexivity|].
  destruct (load_then_classify unknown_everywhere "aiannh.shp" init _ eq_refl)
    as (gdf & gdf' & Hread & Hstore & _ & _ & _ & _ & _ & _ & _ & Hchk).
  injection Hstore as <-.
  rewrite !Hchk. repeat split.
Defined.

(** X6, on a file without a reference system. *)
Lemma load_failure_witness :
  exists w',
    load_tribal_boundaries file_without_crs "plain.geojson" init = (Raise CrsError, w')
    /\ tribal_boundaries w' = Some {| crs := None; features := [reservation] |}
    /\ trace w' = [ReadFile "plain.geojson"].
Proof.
  eexists. split; [reflexivity|].
  destruct (load_failure file_without_crs "plain.geojson" init CrsError _ eq_refl)
    as (Htrace & _ & [(He & _)|(_ & gdf & Hread & _ & Hstore & _)]); [discriminate He|].
  injection Hread as <-. split; [exact Hstore | exact Htrace].
Defined.

(** X7, on a fresh checker. *)
Lemma download_happens_once_witness :
  exists w1,
    check_tribal_land unknown_everywhere 35 (-110) init = (Return true, w1)
    /\ trace w1 = [ReadFile tiger_url]
    /\ check_tribal_land unknown_everywhere 0 0 w1 = (Return false, w1).
Proof.
  eexists. split; [reflexivity|].
  destruct (download_happens_once unknown_everywhere init 35 (-110) true _ eq_refl)
    as ([Hsame|[_ Htrace]] & _ & gdf & Hstore & _ & Hagain).
  - discriminate Hsame.
  - split; [exact Htrace|]. injection Hstore as <-. rewrite Hagain. reflexivity.
Defined.

(** X9, on the archive, one of whose two rows has no [GEOID]. *)
Lemma lazy_download_needs_geoid_witness :
  tribal_boundaries (init : world Z Planar.Polygon) = None
  /\ read_file unknown_everywhere 0 tiger_url = Some archive
  /\ exists w' kept,
       check_tribal_land unknown_everywhere 35 (-110) init = (Return true, w')
       /\ tribal_boundaries w' = Some kept
       /\ features kept = [reservation].
Proof.
  split; [reflexivity|]. split; [reflexivity|].
  destruct (lazy_download_needs_geoid unknown_everywhere init archive 35 (-110)
              eq_refl eq_refl)
    as (answer & w' & kept & Hrun & Hiff & Hstore & _ & _).
  exists w', kept.
  assert (Ha : answer = true).
  { apply Hiff. exists reservation.
    split; [left; reflexivity|]. split; [eexists; reflexivity | reflexivity]. }
  subst answer. split; [exact Hrun|]. split; [exact Hstore|].
  pose proof Hrun as H. vm_compute in H. injection H as H.
  rewrite <- H in Hstore. vm_compute in Hstore. injection Hstore as <-. reflexivity.
Defined.

(** X11, on a first result without a latitude. *)
Lemma only_first_result_counts_witness :
  cache_get (txt "12 Elm St") (geocoding_cache (init : world Z Planar.Polygon)) = None
  /\ exists w',
       geocode_address first_result_broken (txt "12 Elm St") init = (Return None, w')
       /\ trace w' = [GetNominatim "12 Elm St"]
       /\ geocoding_cache w' !! "12 Elm St" = Some None.
Proof.
  split; [reflexivity|].
  destruct (only_first_result_counts first_result_broken (txt "12 Elm St") init
              {| hit_lat := None; hit_lon := Some (-110) |} [hit] eq_refl eq_refl)
    as (result & w' & Hrun & -> & Hcache & Htrace).
  exists w'. split; [exact Hrun|]. split; [exact Htrace|].
  rewrite Hcache. apply lookup_insert_eq.
Defined.

(** X12, on a cell of three spaces. *)
Lemma blank_text_witness :
  keys_trimmed (geocoding_cache (init : world Z Planar.Polygon))
  /\ all_space "   " = true
  /\ exists result w' later,
       geocode_address unknown_everywhere (txt "   ") init = (Return result, w')
       /\ trace w' = GetNominatim "" :: later.
Proof.
  split; [apply keys_trimmed_empty|]. split; [reflexivity|].
  destruct (blank_text_asks_for_empty_address unknown_everywhere "   " init
              keys_trimmed_empty eq_refl)
    as (result & w' & later & Hrun & Htrace & _); [discriminate|].
  exists result, w', later. split; [exact Hrun | exact Htrace].
Defined.

(** X18, on a sheet where one address comes three times. *)
Lemma batch_asks_once_witness :
  let sheet := [Value (txt "12 Elm St"); Value (txt "9 Oak Ave"); Missing;
                Value (txt "12 Elm St"); Value (txt "12 Elm St")] in
  Forall (fun c => c = Missing \/ exists s, c = Value (PyStr s) /\ trimmed s) sheet
  /\ exists events,
       trace (snd (process_excel unknown_everywhere sheet loaded)) = events
       /\ tally to_nominatim events = 2%nat.
Proof.
  intros sheet.
  assert (Hall : Forall (fun c => c = Missing \/ exists s, c = Value (txt s) /\ trimmed s)
                        sheet).
  { repeat first [apply List.Forall_nil
                 | apply List.Forall_cons;
                   [first [left; reflexivity
                          | right; eexists; split; reflexivity]|]]. }
  split; [exact Hall|].
  destruct (batch_asks_once_per_address unknown_everywhere sheet loaded Hall)
    as (events & Htrace & Hsize & _).
  exists events. split; [exact Htrace|].
  assert (Hs : size (geocoding_cache (snd (process_excel unknown_everywhere sheet loaded)))
               = 2%nat) by (vm_compute; reflexivity).
  rewrite Hs in Hsize. change (size (geocoding_cache loaded)) with 0%nat in Hsize. lia.
Defined.

(** X15, on a fresh checker. *)
Lemma batch_sends_cleaned_addresses_witness :
  keys_trimmed (geocoding_cache (init : world Z Planar.Polygon))
  /\ let w' := snd (process_excel fallback_finds
                      [Value (txt " 12 Elm St "); Missing; Value (PyOther 85001)] init) in
     keys_trimmed (geocoding_cache w')
     /\ Forall (fun e => forall q, query e = Some q -> trimmed q) (trace w').
Proof.
  split; [apply keys_trimmed_empty|].
  apply (batch_sends_cleaned_addresses fallback_finds
           [Value (txt " 12 Elm St "); Missing; Value (PyOther 85001)] init
           keys_trimmed_empty (List.Forall_nil _)).
Defined.

End MoreRuns.

(* ===================================================================== *)
(** ** The row loop on values as they come: facts *)
(* ===================================================================== *)

Section RawFacts.
Import Strip Checker Driver.
Context {num other G : Type} (E : outside num other (option G)).
Context (point_builds : num -> num -> bool) (formats : num -> bool).
Implicit Types (w : world num (option G)) (gdf : GeoDataFrame (option G))
  (df done : list (row num other)) (sheet pending : list (cell other)).

Abbreviation check := (Raw.check_tribal_land E point_builds) (only parsing).
Abbreviation turn := (Raw.turn E point_builds formats) (only parsing).
Abbreviation halt := (Raw.halt E point_builds formats) (only parsing).
Abbreviation run := (Raw.run E point_builds formats) (only parsing).
Abbreviation stops := (Raw.stops E point_builds formats) (only parsing).
Abbreviation loop := (Raw.for_each_row E point_builds formats) (only parsing).
Abbreviation batch := (Raw.process_excel E point_builds formats) (only parsing).

(** One turn on a row that is still blank either writes that row, as
    [turn] says, or raises, as [halt] says. *)
Lemma raw_process_row_turn done (c : cell other) rest w :
  match Raw.process_row E point_builds formats (length done) c
          (done ++ blank_row c :: rest) w with
  | (inr df, w') => exists r, df = done ++ r :: rest /\ turn w c r w'
  | (inl e, w') => halt w c e w'
  end.
Proof.
  destruct c as [|a]; simpl.
  - rewrite alter_here. eexists. split; [reflexivity|]. constructor.
  - destruct (geocode_address_returns E a w) as (coords & w1 & Hgeo & _).
    rewrite Hgeo. destruct coords as [[lat lon]|].
    + destruct (Raw.check_tribal_land E point_builds lat lon w1) as [[e|on_tribal] w2] eqn:Hchk.
      * eapply Raw.halt_classifier; eassumption.
      * destruct (formats lat && formats lon) eqn:Hf.
        -- rewrite !alter_here. eexists. split; [reflexivity|].
           apply andb_true_iff in Hf. destruct Hf.
           eapply Raw.turn_resolved; eassumption.
        -- eapply Raw.halt_format; eassumption.
    + rewrite alter_here. eexists. split; [reflexivity|].
      apply Raw.turn_unresolved, Hgeo.
Qed.

(** The loop over the rows still to do, those before being done: it
    returns the rows that [run] describes, or raises as [stops] says. *)
Lemma raw_for_each_row_run pending : forall done w,
  match loop (iterrows_from (length done) (map (@blank_row num other) pending))
             (done ++ map (@blank_row num other) pending) w with
  | (inr df, w') => exists out, df = done ++ out /\ run w pending out w'
  | (inl e, w') => stops w pending e w'
  end.
Proof.
  induction pending as [|c pending IH]; intros done w.
  - simpl. exists []. rewrite app_nil_r. split; [reflexivity | constructor].
  - cbn [map iterrows_from address_cell blank_row Raw.for_each_row].
    pose proof (raw_process_row_turn done c (map blank_row pending) w) as Hrow.
    destruct (Raw.process_row E point_builds formats (length done) c
                (done ++ blank_row c :: map blank_row pending) w) as [[e|df1] w1].
    + apply Raw.stops_here, Hrow.
    + destruct Hrow as (r & -> & Hturn).
      specialize (IH (done ++ [r]) w1).
      rewrite length_app, Nat.add_1_r, <- app_assoc in IH. simpl in IH.
      destruct (loop (iterrows_from (S (length done)) (map blank_row pending))
                     (done ++ r :: map blank_row pending) w1) as [[e|df2] w2].
      * eapply Raw.stops_later; eassumption.
      * destruct IH as (out & -> & Hrun). exists (r :: out).
        rewrite <- app_assoc. split; [reflexivity|].
        eapply Raw.run_turn; eassumption.
Qed.

Lemma raw_process_excel_run sheet w :
  match batch (Raw.Cells sheet) w with
  | (inr df, w') => run w sheet df w'
  | (inl e, w') => stops w sheet e w'
  end.
Proof.
  pose proof (raw_for_each_row_run sheet [] w) as H. simpl in H.
  unfold Raw.process_excel, iterrows.
  destruct (loop (iterrows_from 0 (map blank_row sheet)) (map blank_row sheet) w)
    as [[e|df] w']; [exact H|].
  destruct H as (out & -> & Hrun). exact Hrun.
Qed.

(** What a turn writes: the cell it was given, and a row as [classified]
    describes. *)
Lemma raw_turn_classified w (c : cell other) r w' :
  turn w c r w' -> address_cell r = c /\ classified r.
Proof.
  intros H. destruct H as [|a w1 Hgeo|a lat lon w1 on_tribal w2 Hgeo Hchk Hlat Hlon];
    unfold classified; simpl; (split; [reflexivity|]).
  - auto.
  - right. auto.
  - left. destruct on_tribal; eauto.
Qed.

Lemma raw_run_classified w sheet df w' :
  run w sheet df w' ->
  map address_cell df = sheet /\ Forall classified df /\ length df = length sheet.
Proof.
  induction 1 as [w|w c r w1 cells rows w' Hturn _ (IH1 & IH2 & IH3)]; [auto|].
  destruct (raw_turn_classified _ _ _ _ Hturn) as [Hc Hr].
  simpl. split_and!; auto; congruence.
Qed.

(** The row at a place, the checker at that time and the turn taken. *)
Lemma raw_run_lookup w sheet df w' :
  run w sheet df w' ->
  forall i c, sheet !! i = Some c ->
    exists r wi wi',
      df !! i = Some r
      /\ run w (take i sheet) (take i df) wi
      /\ turn wi c r wi'.
Proof.
  induction 1 as [w|w c0 r0 w1 cells rows w' Hturn Hrun IH]; intros i c Hi.
  - destruct i; discriminate.
  - destruct i as [|i]; simpl in Hi.
    + injection Hi as <-. exists r0, w, w1. simpl. split_and!; auto. constructor.
    + destruct (IH i c Hi) as (r & wi & wi' & Hr & Hpre & Ht).
      exists r, wi, wi'. simpl. split_and!; auto.
      eapply Raw.run_turn; eassumption.
Qed.


(** *** The classifier *)

Lemma raw_iterrows_within_found (point : Point num) l : forall start i,
  Raw.iterrows_within E point start l = inr (Some i) ->
  exists before b g after,
    l = before ++ b :: after
    /\ geometry b = Some g /\ contains E (Some g) point = true
    /\ Forall (fun b' => exists g', geometry b' = Some g'
                                   /\ contains E (Some g') point = false) before.
Proof.
  induction l as [|b l IH]; intros start i; simpl; [discriminate|].
  destruct (geometry b) as [g|] eqn:Hg; [|discriminate].
  destruct (contains E (Some g) point) eqn:Hc.
  - intros _. exists [], b, g, l. auto.
  - intros H. destruct (IH _ _ H) as (before & b' & g' & after & -> & Hg' & Hc' & Hb).
    exists (b :: before), b', g', after. split_and!; eauto.
Qed.

Lemma raw_iterrows_within_none (point : Point num) l : forall start,
  Raw.iterrows_within E point start l = inr None ->
  Forall (fun b => exists g, geometry b = Some g /\ contains E (Some g) point = false) l.
Proof.
  induction l as [|b l IH]; intros start; simpl; [auto|].
  destruct (geometry b) as [g|] eqn:Hg; [|discriminate].
  destruct (contains E (Some g) point) eqn:Hc; [discriminate|].
  intros H. constructor; eauto.
Qed.

Lemma raw_iterrows_within_raises (point : Point num) l : forall start e,
  Raw.iterrows_within E point start l = inl e ->
  e = Raw.NoGeometry
  /\ exists before b after,
       l = before ++ b :: after /\ geometry b = None
       /\ Forall (fun b' => exists g', geometry b' = Some g'
                                      /\ contains E (Some g') point = false) before.
Proof.
  induction l as [|b l IH]; intros start e; simpl; [discriminate|].
  destruct (geometry b) as [g|] eqn:Hg.
  - destruct (contains E (Some g) point) eqn:Hc; [discriminate|].
    intros H. destruct (IH _ _ H) as (-> & before & b' & after & -> & Hg' & Hb).
    split; [reflexivity|]. exists (b :: before), b', after. split_and!; eauto.
  - intros [= <-]. split; [reflexivity|]. exists [], b, l. auto.
Qed.


(** The three ways into the loop of the classifier. *)
Lemma raw_check_loaded w gdf lat lon :
  tribal_boundaries w = Some gdf ->
  check lat lon w =
  (if point_builds lon lat then
     match Raw.iterrows_within E {| x := lon; y := lat |} 0 (features gdf) with
     | inl e => inl e
     | inr found => inr (bool_decide (is_Some found))
     end
   else inl Raw.BadPoint, w).
Proof.
  intros H. unfold Raw.check_tribal_land. rewrite H.
  destruct (point_builds lon lat); [|reflexivity].
  destruct (Raw.iterrows_within E _ 0 (features gdf)); reflexivity.
Qed.

Lemma raw_check_download w gdf lat lon :
  tribal_boundaries w = None ->
  read_file E (length (trace w)) tiger_url = Some gdf ->
  let kept := {| crs := crs gdf;
                 features := List.filter (fun b => bool_decide (is_Some (GEOID b)))
                                         (features gdf) |} in
  check lat lon w =
  (if point_builds lon lat then
     match Raw.iterrows_within E {| x := lon; y := lat |} 0 (features kept) with
     | inl e => inl e
     | inr found => inr (bool_decide (is_Some found))
     end
   else inl Raw.BadPoint,
   {| tribal_boundaries := Some kept;
      geocoding_cache := geocoding_cache w;
      trace := trace w ++ [ReadFile tiger_url] |}).
Proof.
  intros H Hread. unfold Raw.check_tribal_land, download_tribal_boundaries,
    gpd_read_file, set_tribal_boundaries, mbind, mret, M_bind, M_ret.
  rewrite H, Hread. simpl.
  destruct (point_builds lon lat); [|reflexivity].
  destruct (Raw.iterrows_within E _ 0 _); reflexivity.
Qed.

Lemma raw_check_unreadable w lat lon :
  tribal_boundaries w = None ->
  read_file E (length (trace w)) tiger_url = None ->
  check lat lon w = (inl (Raw.Propagated ReadError), emit (ReadFile tiger_url) w).
Proof.
  intros H Hread. unfold Raw.check_tribal_land, download_tribal_boundaries,
    gpd_read_file, set_tribal_boundaries, mbind, mret, M_bind, M_ret.
  rewrite H, Hread. reflexivity.
Qed.

(** What the classifier does to the checker, however it ends: nothing,
    or the one download with nothing loaded before; the cache is not
    touched. *)
Lemma raw_check_effects w lat lon :
  geocoding_cache (snd (check lat lon w)) = geocoding_cache w
  /\ ((is_Some (tribal_boundaries w) /\ snd (check lat lon w) = w)
      \/ (tribal_boundaries w = None
          /\ trace (snd (check lat lon w)) = trace w ++ [ReadFile tiger_url]
          /\ (is_Some (tribal_boundaries (snd (check lat lon w)))
              <-> is_Some (read_file E (length (trace w)) tiger_url)))).
Proof.
  destruct (tribal_boundaries w) as [gdf|] eqn:Hb.
  - rewrite (raw_check_loaded w gdf lat lon Hb). simpl. split; [reflexivity|].
    left. rewrite ?Hb. eauto.
  - destruct (read_file E (length (trace w)) tiger_url) as [gdf|] eqn:Hread.
    + rewrite (raw_check_download w gdf lat lon Hb Hread). simpl.
      split; [reflexivity|]. right. split_and!; auto. split; eauto.
    + rewrite (raw_check_unreadable w lat lon Hb Hread). simpl.
      split; [reflexivity|]. right. split_and!; auto. rewrite ?Hb.
      split; intros [? ?]; discriminate.
Qed.

(** *** When nothing can go wrong *)







End RawFacts.

(* ===================================================================== *)
(** ** The batch, row by row *)
(* ===================================================================== *)

Section Batches.
Import Strip Checker Driver.
Context {num other G : Type} (E : outside num other (option G)).
Context (point_builds : num -> num -> bool) (formats : num -> bool).
Implicit Types (w : world num (option G)) (gdf : GeoDataFrame (option G))
  (df done : list (row num other)) (sheet pending : list (cell other)).

Abbreviation check := (Raw.check_tribal_land E point_builds) (only parsing).
Abbreviation turn := (Raw.turn E point_builds formats) (only parsing).
Abbreviation halt := (Raw.halt E point_builds formats) (only parsing).
Abbreviation run := (Raw.run E point_builds formats) (only parsing).
Abbreviation stops := (Raw.stops E point_builds formats) (only parsing).
Abbreviation batch := (Raw.process_excel E point_builds formats) (only parsing).



Lemma raw_all_missing_run w sheet df w' :
  run w sheet df w' ->
  Forall (fun c => c = Missing) sheet ->
  w' = w /\ df = map (fun c => set_On_Tribal_Land "No Data" (blank_row c)) sheet.
Proof.
  induction 1 as [w|w c r w1 cells rows w' Hturn _ IH]; intros Hall; [auto|].
  apply Forall_cons in Hall. destruct Hall as [-> Hall].
  inversion Hturn; subst. destruct (IH Hall) as [-> ->]. auto.
Qed.

Lemma raw_all_missing_no_stops w sheet e w' :
  stops w sheet e w' -> Forall (fun c => c = Missing) sheet -> False.
Proof.
  induction 1 as [w c e w' cells Hhalt|w c r w1 cells e w' Hturn _ IH]; intros Hall;
    apply Forall_cons in Hall; destruct Hall as [-> Hall].
  - inversion Hhalt.
  - auto.
Qed.

(** X8. The classifier raises in three cases only. With nothing loaded
    and the archive unreadable it passes the reader's exception on: the
    store stays empty, so the next call tries the download again. When
    the point cannot be built it raises after any download. Otherwise it
    raises when the loop comes to a row without a geometry before any row
    that contains the point. In every case the cache is untouched. *)
Theorem classifier_raises_in_three_ways w lat lon e w1 :
  check lat lon w = (inl e, w1) ->
  geocoding_cache w1 = geocoding_cache w
  /\ ((e = Raw.Propagated ReadError
       /\ tribal_boundaries w = None
       /\ read_file E (length (trace w)) tiger_url = None
       /\ tribal_boundaries w1 = None
       /\ trace w1 = trace w ++ [ReadFile tiger_url]
       /\ forall lat' lon',
            trace (snd (check lat' lon' w1))
            = trace w ++ [ReadFile tiger_url; ReadFile tiger_url])
      \/ (e = Raw.BadPoint
          /\ point_builds lon lat = false
          /\ is_Some (tribal_boundaries w1))
      \/ (e = Raw.NoGeometry
          /\ point_builds lon lat = true
          /\ exists gdf before b after,
               tribal_boundaries w1 = Some gdf
               /\ features gdf = before ++ b :: after
               /\ geometry b = None
               /\ Forall (fun b' => exists g', geometry b' = Some g'
                            /\ contains E (Some g') {| x := lon; y := lat |} = false)
                         before)).
Proof.
  intros Hrun.
  assert (Hloop : forall gdf w2,
    (if point_builds lon lat then
       match Raw.iterrows_within E {| x := lon; y := lat |} 0 (features gdf) with
       | inl e => inl e
       | inr found => inr (bool_decide (is_Some found))
       end
     else inl Raw.BadPoint, w2) = (inl e, w1) ->
    tribal_boundaries w2 = Some gdf ->
    (e = Raw.BadPoint /\ point_builds lon lat = false /\ is_Some (tribal_boundaries w1))
    \/ (e = Raw.NoGeometry /\ point_builds lon lat = true
        /\ exists gdf before b after,
             tribal_boundaries w1 = Some gdf
             /\ features gdf = before ++ b :: after
             /\ geometry b = None
             /\ Forall (fun b' => exists g', geometry b' = Some g'
                          /\ contains E (Some g') {| x := lon; y := lat |} = false)
                       before)).
  { intros gdf w2 H Hb. destruct (point_builds lon lat).
    - destruct (Raw.iterrows_within E _ 0 (features gdf)) as [e'|found] eqn:Hit;
        [|discriminate].
      injection H as -> ->.
      destruct (raw_iterrows_within_raises E _ _ _ _ Hit) as (-> & before & b & after & Hl & Hg & Hbefore).
      right. split_and!; auto. exists gdf, before, b, after. auto.
    - injection H as <- <-. left. rewrite Hb. eauto. }
  destruct (tribal_boundaries w) as [gdf|] eqn:Hb.
  - rewrite (raw_check_loaded E point_builds w gdf lat lon Hb) in Hrun.
    assert (w1 = w) as -> by (destruct (point_builds lon lat);
      [destruct (Raw.iterrows_within E _ 0 (features gdf))|]; congruence).
    split; [reflexivity|]. right. eapply Hloop; eassumption.
  - destruct (read_file E (length (trace w)) tiger_url) as [gdf|] eqn:Hread.
    + rewrite (raw_check_download E point_builds w gdf lat lon Hb Hread) in Hrun.
      cbv zeta in Hrun.
      match type of Hrun with (_, ?w2) = _ =>
        assert (w1 = w2) as Hw by (destruct (point_builds lon lat);
          [destruct (Raw.iterrows_within E _ 0 _)|]; congruence) end.
      split; [rewrite Hw; reflexivity|]. right.
      eapply (Hloop {| crs := crs gdf;
                       features := List.filter (fun b => bool_decide (is_Some (GEOID b)))
                                               (features gdf) |});
        [exact Hrun | reflexivity].
    + rewrite (raw_check_unreadable E point_builds w lat lon Hb Hread) in Hrun.
      injection Hrun as <- <-. simpl. split; [reflexivity|]. left.
      split_and!; auto. intros lat' lon'.
      set (w1 := emit (ReadFile tiger_url) w).
      assert (Hb1 : tribal_boundaries w1 = None) by exact Hb.
      destruct (read_file E (length (trace w1)) tiger_url) as [gdf|] eqn:Hread1.
      * rewrite (raw_check_download E point_builds w1 gdf lat' lon' Hb1 Hread1). simpl.
        rewrite <- app_assoc. reflexivity.
      * rewrite (raw_check_unreadable E point_builds w1 lat' lon' Hb1 Hread1). simpl.
        rewrite <- app_assoc. reflexivity.
Qed.

Lemma raw_stops_decompose w sheet e w' :
  stops w sheet e w' ->
  exists i c rows wi,
    sheet !! i = Some c /\ run w (take i sheet) rows wi /\ halt wi c e w'.
Proof.
  induction 1 as [w c e w' cells Hhalt|w c r w1 cells e w' Hturn _ IH].
  - exists 0, c, [], w. simpl. split_and!; auto. constructor.
  - destruct IH as (i & c' & rows & wi & Hi & Hpre & Hhalt).
    exists (S i), c', (r :: rows), wi. simpl. split_and!; auto.
    eapply Raw.run_turn; eassumption.
Qed.

(** X13. The row loop is aborted in two places only: at its first row
    when the frame has no address column, the checker untouched; or at a
    row whose address the resolver resolved to a coordinate, by an
    exception of the classifier or by the number format of the log line
    refusing the coordinate. A missing address, or an address for which
    the resolver returns nothing, never aborts it. *)
Theorem batch_aborts_after_a_resolved_address (f : Raw.frame other) w e w' :
  batch f w = (inl e, w') ->
  (e = Raw.NoColumn /\ w' = w /\ exists n, f = Raw.NoSuchColumn (S n))
  \/ exists sheet i a rows wi lat lon w1,
       f = Raw.Cells sheet
       /\ sheet !! i = Some (Value a)
       /\ run w (take i sheet) rows wi
       /\ geocode_address E a wi = (Return (Some (lat, lon)), w1)
       /\ (check lat lon w1 = (inl e, w')
           \/ (e = Raw.BadFormat
               /\ formats lat && formats lon = false
               /\ exists on_tribal, check lat lon w1 = (inr on_tribal, w'))).
Proof.
  intros Hrun. destruct f as [sheet|[|n]].
  - right.
    pose proof (raw_process_excel_run E point_builds formats sheet w) as H.
    rewrite Hrun in H.
    destruct (raw_stops_decompose _ _ _ _ H) as (i & c & rows & wi & Hi & Hpre & Hhalt).
    destruct Hhalt as [a lat lon w1 e w2 Hgeo Hchk|a lat lon w1 on_tribal w2 Hgeo Hchk Hf].
    + exists sheet, i, a, rows, wi, lat, lon, w1. split_and!; auto.
    + exists sheet, i, a, rows, wi, lat, lon, w1. split_and!; auto.
      right. split_and!; eauto.
  - discriminate.
  - injection Hrun as <- <-. left. split_and!; eauto.
Qed.

(** *** Order and number of the events *)

Ltac paced_events :=
  repeat first [apply Raw.paced_nil | apply Raw.paced_fallback | apply Raw.paced_pause
               |apply Raw.paced_read | apply Raw.paced_alone].

Lemma paced_app l1 l2 : Raw.paced l1 -> Raw.paced l2 -> Raw.paced (l1 ++ l2).
Proof.
  induction 1; intros H2; simpl;
    [exact H2
    |apply Raw.paced_alone
    |apply Raw.paced_fallback
    |apply Raw.paced_pause
    |apply Raw.paced_read]; auto.
Qed.

Lemma geocode_paced (a : pyobj other) w :
  exists events,
    trace (snd (geocode_address E a w)) = trace w ++ events
    /\ Raw.paced events
    /\ tally to_nominatim events <= 1
    /\ tally is_read events = 0
    /\ tribal_boundaries (snd (geocode_address E a w)) = tribal_boundaries w.
Proof.
  destruct (cache_get a (geocoding_cache w)) as [cached|] eqn:Hget.
  - rewrite (geocode_address_hit E a w cached Hget). exists []. simpl.
    rewrite app_nil_r. unfold tally. simpl. split_and!; auto. paced_events.
  - rewrite (geocode_address_miss E a w Hget). simpl. eexists. split; [reflexivity|].
    destruct (miss_answer_events E (length (trace w)) (strip (str E a))) as [->|[->| ->]];
      unfold tally; simpl; split_and!; auto; paced_events.
Qed.

Lemma check_paced lat lon w :
  exists events,
    trace (snd (check lat lon w)) = trace w ++ events
    /\ Raw.paced events
    /\ tally to_nominatim events = 0
    /\ tally is_read events <= 1
    /\ (is_Some (tribal_boundaries w) ->
        events = [] /\ is_Some (tribal_boundaries (snd (check lat lon w))))
    /\ (forall on_tribal, fst (check lat lon w) = inr on_tribal ->
        is_Some (tribal_boundaries (snd (check lat lon w)))).
Proof.
  destruct (tribal_boundaries w) as [gdf|] eqn:Hb.
  - rewrite (raw_check_loaded E point_builds w gdf lat lon Hb). exists []. simpl.
    rewrite app_nil_r, Hb. unfold tally. simpl. split_and!; eauto. paced_events.
  - destruct (read_file E (length (trace w)) tiger_url) as [gdf|] eqn:Hread.
    + rewrite (raw_check_download E point_builds w gdf lat lon Hb Hread). simpl.
      eexists. split; [reflexivity|]. unfold tally. simpl.
      split_and!; eauto; [paced_events|]. intros [? ?]. discriminate.
    + rewrite (raw_check_unreadable E point_builds w lat lon Hb Hread). simpl.
      eexists. split; [reflexivity|]. unfold tally. simpl.
      split_and!; eauto; [paced_events| |]; [intros [? ?]|]; discriminate.
Qed.

Lemma turn_paced w (c : cell other) r w' :
  turn w c r w' ->
  exists events,
    trace w' = trace w ++ events
    /\ Raw.paced events
    /\ tally to_nominatim events <= (if is_missing c then 0 else 1)
    /\ tally is_read events <= 1
    /\ (is_Some (tribal_boundaries w) ->
        tally is_read events = 0 /\ is_Some (tribal_boundaries w'))
    /\ (tally is_read events = 0 \/ is_Some (tribal_boundaries w')).
Proof.
  intros H. destruct H as [|a w1 Hgeo|a lat lon w1 on_tribal w2 Hgeo Hchk Hlat Hlon].
  - exists []. rewrite app_nil_r. unfold tally. simpl. split_and!; auto. paced_events.
  - destruct (geocode_paced a w) as (ev & Ht & Hp & Hn & Hr & Hb).
    rewrite Hgeo in Ht, Hb. simpl in Ht, Hb.
    exists ev. simpl. rewrite Hb. split_and!; auto. lia.
  - destruct (geocode_paced a w) as (ev1 & Ht1 & Hp1 & Hn1 & Hr1 & Hb1).
    rewrite Hgeo in Ht1, Hb1. simpl in Ht1, Hb1.
    destruct (check_paced lat lon w1) as (ev2 & Ht2 & Hp2 & Hn2 & Hr2 & Hl2 & Hok).
    rewrite Hchk in Ht2, Hl2, Hok. simpl in Ht2, Hl2, Hok.
    exists (ev1 ++ ev2). rewrite Ht2, Ht1, <- app_assoc, !tally_app. simpl.
    split_and!; auto; try lia.
    + apply paced_app; assumption.
    + intros Hw. rewrite <- Hb1 in Hw. destruct (Hl2 Hw) as [-> Hw2].
      unfold tally at 2. simpl. split; [lia | exact Hw2].
    + right. eapply Hok. reflexivity.
Qed.

Lemma halt_paced w (c : cell other) e w' :
  halt w c e w' ->
  exists events,
    trace w' = trace w ++ events
    /\ Raw.paced events
    /\ tally to_nominatim events <= (if is_missing c then 0 else 1)
    /\ tally is_read events <= 1
    /\ (is_Some (tribal_boundaries w) -> tally is_read events = 0).
Proof.
  intros H.
  destruct H as [a lat lon w1 e w2 Hgeo Hchk|a lat lon w1 on_tribal w2 Hgeo Hchk Hf];
    destruct (geocode_paced a w) as (ev1 & Ht1 & Hp1 & Hn1 & Hr1 & Hb1);
    rewrite Hgeo in Ht1, Hb1; simpl in Ht1, Hb1;
    destruct (check_paced lat lon w1) as (ev2 & Ht2 & Hp2 & Hn2 & Hr2 & Hl2 & _);
    rewrite Hchk in Ht2, Hl2; simpl in Ht2, Hl2;
    exists (ev1 ++ ev2); rewrite Ht2, Ht1, <- app_assoc, !tally_app; simpl;
    (split_and!; auto; try lia;
     [apply paced_app; assumption
     |intros Hw; rewrite <- Hb1 in Hw; destruct (Hl2 Hw) as [-> _];
      unfold tally at 2; simpl; lia]).
Qed.

Lemma run_paced w sheet df w' :
  run w sheet df w' ->
  exists events,
    trace w' = trace w ++ events
    /\ Raw.paced events
    /\ tally to_nominatim events <= length (List.filter (fun c => negb (is_missing c)) sheet)
    /\ tally is_read events <= 1
    /\ (is_Some (tribal_boundaries w) ->
        tally is_read events = 0 /\ is_Some (tribal_boundaries w'))
    /\ (tally is_read events = 0 \/ is_Some (tribal_boundaries w')).
Proof.
  induction 1 as [w|w c r w1 cells rows w' Hturn _ IH].
  - exists []. rewrite app_nil_r. unfold tally. simpl. split_and!; auto. paced_events.
  - destruct (turn_paced _ _ _ _ Hturn) as (ev1 & Ht1 & Hp1 & Hn1 & Hr1 & Hl1 & Ha1).
    destruct IH as (ev2 & Ht2 & Hp2 & Hn2 & Hr2 & Hl2 & Ha2).
    exists (ev1 ++ ev2). rewrite Ht2, Ht1, <- app_assoc, !tally_app.
    cbn [List.filter]. split_and!; auto.
    + apply paced_app; assumption.
    + destruct (is_missing c); cbn [negb length]; lia.
    + destruct Ha1 as [H0|Hw1]; [lia|]. destruct (Hl2 Hw1). lia.
    + intros Hw. destruct (Hl1 Hw) as [H0 Hw1]. destruct (Hl2 Hw1). split; [lia|auto].
    + destruct Ha2 as [H2|Hw']; [|auto].
      destruct Ha1 as [H1|Hw1]; [left; lia|]. destruct (Hl2 Hw1). auto.
Qed.

Lemma stops_paced w sheet e w' :
  stops w sheet e w' ->
  exists events,
    trace w' = trace w ++ events
    /\ Raw.paced events
    /\ tally to_nominatim events <= length (List.filter (fun c => negb (is_missing c)) sheet)
    /\ tally is_read events <= 1
    /\ (is_Some (tribal_boundaries w) -> tally is_read events = 0).
Proof.
  induction 1 as [w c e w' cells Hhalt|w c r w1 cells e w' Hturn _ IH].
  - destruct (halt_paced _ _ _ _ Hhalt) as (ev & Ht & Hp & Hn & Hr & Hl).
    exists ev. cbn [List.filter]. split_and!; auto.
    destruct (is_missing c); cbn [negb length] in *; lia.
  - destruct (turn_paced _ _ _ _ Hturn) as (ev1 & Ht1 & Hp1 & Hn1 & Hr1 & Hl1 & Ha1).
    destruct IH as (ev2 & Ht2 & Hp2 & Hn2 & Hr2 & Hl2).
    exists (ev1 ++ ev2). rewrite Ht2, Ht1, <- app_assoc, !tally_app.
    cbn [List.filter]. split_and!; auto.
    + apply paced_app; assumption.
    + destruct (is_missing c); cbn [negb length]; lia.
    + destruct Ha1 as [H0|Hw1]; [lia|]. specialize (Hl2 Hw1). lia.
    + intros Hw. destruct (Hl1 Hw) as [H0 Hw1]. specialize (Hl2 Hw1). lia.
Qed.

(** X14. The events of a batch, however it ends, are [paced]: a request
    to the fallback service, or a pause, comes only right after a request
    to the primary service, and each request to the primary service has at
    most one of them after it; there is at most one request to the primary
    service per row that has an address; and the archive is read at most
    once, and not at all when the boundaries were loaded beforehand. *)
Theorem batch_events_paced (f : Raw.frame other) w :
  exists events,
    trace (snd (batch f w)) = trace w ++ events
    /\ Raw.paced events
    /\ tally to_nominatim events
       <= match f with
          | Raw.Cells sheet => length (List.filter (fun c => negb (is_missing c)) sheet)
          | Raw.NoSuchColumn _ => 0
          end
    /\ tally is_read events <= 1
    /\ (is_Some (tribal_boundaries w) -> tally is_read events = 0).
Proof.
  destruct f as [sheet|n].
  - pose proof (raw_process_excel_run E point_builds formats sheet w) as H.
    destruct (batch (Raw.Cells sheet) w) as [[e|df] w'].
    + apply (stops_paced _ _ _ _ H).
    + destruct (run_paced _ _ _ _ H) as (ev & Ht & Hp & Hn & Hr & Hl & _).
      exists ev. split_and!; auto. intros Hw. apply (Hl Hw).
  - exists []. rewrite app_nil_r. unfold tally.
    destruct n; simpl; split_and!; auto; paced_events.
Qed.

Lemma missing_or_not sheet :
  length (List.filter is_missing sheet)
  + length (List.filter (fun c : cell other => negb (is_missing c)) sheet)
  = length sheet.
Proof.
  induction sheet as [|c sheet IH]; [reflexivity|].
  cbn [List.filter]. destruct (is_missing c); cbn [negb length]; lia.
Qed.

(** X16. A frame the loop returns has one row per row of the sheet; its
    'No Data' rows are as many as the missing address cells, and its
    'Yes', 'No' and 'Could Not Geocode' rows together, the three figures
    [main] prints, as many as the cells that hold an address: they fall
    short of the total [main] prints by the number of missing cells. *)
Theorem summary_counts_rows_with_address sheet w df w' :
  batch (Raw.Cells sheet) w = (inr df, w') ->
  length df = length sheet
  /\ count_label "No Data" df = length (List.filter is_missing sheet)
  /\ count_label "Yes" df + count_label "No" df + count_label "Could Not Geocode" df
     = length (List.filter (fun c => negb (is_missing c)) sheet)
  /\ count_label "Yes" df + count_label "No" df + count_label "Could Not Geocode" df
     + length (List.filter is_missing sheet)
     = length df.
Proof.
  intros Hrun.
  pose proof (raw_process_excel_run E point_builds formats sheet w) as H.
  rewrite Hrun in H.
  destruct (raw_run_classified E point_builds formats _ _ _ _ H) as (Hcells & Hall & Hlen).
  pose proof (no_data_count df Hall) as Hnd. rewrite Hcells in Hnd.
  pose proof (count_label_partition df Hall) as Hsum.
  pose proof (missing_or_not sheet) as Hsplit.
  split_and!; auto; lia.
Qed.

Lemma raw_iterrows_within_any (point : Point num) l : forall start found,
  Raw.iterrows_within E point start l = inr found ->
  bool_decide (is_Some found)
  = existsb (fun b => match geometry b with
                      | Some g => contains E (Some g) point
                      | None => false
                      end) l.
Proof.
  induction l as [|b l IH]; intros start found; simpl.
  - intros [= <-]. reflexivity.
  - destruct (geometry b) as [g|]; [|discriminate].
    destruct (contains E (Some g) point); simpl; [intros [= <-]; reflexivity | apply IH].
Qed.

Lemma raw_turn_loaded w gdf (c : cell other) r w' :
  turn w c r w' ->
  tribal_boundaries w = Some gdf ->
  tribal_boundaries w' = Some gdf
  /\ (forall lat lon, Latitude r = Some lat -> Longitude r = Some lon ->
        On_Tribal_Land r
        = Some (if Raw.within_any E gdf lat lon then "Yes" else "No"))
  /\ (Latitude r = None \/ Longitude r = None ->
      On_Tribal_Land r = Some "Could Not Geocode" \/ On_Tribal_Land r = Some "No Data").
Proof.
  intros H Hb. destruct H as [|a w1 Hgeo|a lat lon w1 on_tribal w2 Hgeo Hchk Hlat Hlon];
    simpl.
  - split_and!; auto. discriminate.
  - destruct (geocode_address_returns E a w) as (c' & w1' & Hgeo' & Hb1).
    rewrite Hgeo in Hgeo'. injection Hgeo' as _ <-. rewrite Hb in Hb1.
    split_and!; auto. discriminate.
  - destruct (geocode_address_returns E a w) as (c' & w1' & Hgeo' & Hb1).
    rewrite Hgeo in Hgeo'. injection Hgeo' as _ <-. rewrite Hb in Hb1.
    rewrite (raw_check_loaded E point_builds w1 gdf lat lon Hb1) in Hchk.
    destruct (point_builds lon lat); [|discriminate].
    destruct (Raw.iterrows_within E _ 0 (features gdf)) as [e|found] eqn:Hit;
      [discriminate|].
    injection Hchk as <- <-.
    rewrite (raw_iterrows_within_any _ _ _ _ Hit).
    split_and!; auto.
    + intros lat' lon' [= <-] [= <-]. reflexivity.
    + intros [?|?]; discriminate.
Qed.

(** X17. With the boundaries loaded, in every frame the loop returns
    the store is still the one given, and a row that carries coordinates
    is labelled 'Yes' when some boundary row has a geometry that contains
    Point(longitude, latitude) and 'No' otherwise; a row without
    coordinates is labelled 'Could Not Geocode' or 'No Data'. *)
Theorem labels_follow_the_boundaries sheet w gdf df w' :
  tribal_boundaries w = Some gdf ->
  batch (Raw.Cells sheet) w = (inr df, w') ->
  tribal_boundaries w' = Some gdf
  /\ length df = length sheet
  /\ Forall (fun r =>
       (forall lat lon, Latitude r = Some lat -> Longitude r = Some lon ->
          On_Tribal_Land r
          = Some (if Raw.within_any E gdf lat lon then "Yes" else "No"))
       /\ (Latitude r = None \/ Longitude r = None ->
           On_Tribal_Land r = Some "Could Not Geocode"
           \/ On_Tribal_Land r = Some "No Data")) df.
Proof.
  intros Hb Hrun.
  pose proof (raw_process_excel_run E point_builds formats sheet w) as H.
  rewrite Hrun in H.
  destruct (raw_run_classified E point_builds formats _ _ _ _ H) as (_ & _ & Hlen).
  split_and!; [|exact Hlen|]; revert Hb; clear Hrun Hlen;
    induction H as [w|w c r w1 cells rows w' Hturn _ IH]; intros Hb; auto;
    destruct (raw_turn_loaded _ gdf _ _ _ Hturn Hb) as (Hb1 & Hyes & Hno); auto.
Qed.

(** *** The rows of a returned frame *)

Lemma raw_run_split w sheet df w' :
  run w sheet df w' ->
  forall i c, sheet !! i = Some c ->
    exists r wi wi',
      df !! i = Some r
      /\ run w (take i sheet) (take i df) wi
      /\ turn wi c r wi'
      /\ run wi' (drop (S i) sheet) (drop (S i) df) w'.
Proof.
  induction 1 as [w|w c0 r0 w1 cells rows w' Hturn Hrun IH]; intros i c Hi.
  - destruct i; discriminate.
  - destruct i as [|i]; simpl in Hi.
    + injection Hi as <-. exists r0, w, w1. simpl. rewrite !drop_0.
      split_and!; auto. constructor.
    + destruct (IH i c Hi) as (r & wi & wi' & Hr & Hpre & Ht & Hpost).
      exists r, wi, wi'. simpl. split_and!; auto.
      eapply Raw.run_turn; eassumption.
Qed.

(** The row of a cell that holds a value is the resolver's answer to that
    value, asked in the state the rows before it had left; the events of
    that call are part of the trace the loop leaves. *)
Lemma raw_run_resolved w sheet df w' :
  run w sheet df w' ->
  forall i a, sheet !! i = Some (Value a) ->
    exists r wi coords w1 before after,
      df !! i = Some r
      /\ run w (take i sheet) (take i df) wi
      /\ geocode_address E a wi = (Return coords, w1)
      /\ trace w1 = trace w ++ before
      /\ trace w' = trace w1 ++ after
      /\ address_cell r = Value a
      /\ match coords with
         | Some (lat, lon) =>
             Latitude r = Some lat /\ Longitude r = Some lon
             /\ formats lat = true /\ formats lon = true
             /\ (On_Tribal_Land r = Some "Yes" \/ On_Tribal_Land r = Some "No")
         | None =>
             Latitude r = None /\ Longitude r = None
             /\ On_Tribal_Land r = Some "Could Not Geocode"
         end.
Proof.
  intros Hrun i a Hi.
  destruct (raw_run_split _ _ _ _ Hrun i _ Hi) as (r & wi & wi' & Hr & Hpre & Hturn & Hpost).
  destruct (run_paced _ _ _ _ Hpre) as (ev0 & Ht0 & _).
  destruct (run_paced _ _ _ _ Hpost) as (ev3 & Ht3 & _).
  destruct (geocode_paced a wi) as (ev1 & Ht1 & _).
  inversion Hturn as [|a' w1 Hgeo|a' lat lon w1 on_tribal w2 Hgeo Hchk Hlat Hlon]; subst.
  - rewrite Hgeo in Ht1. simpl in Ht1.
    eexists _, wi, None, wi', (ev0 ++ ev1), ev3.
    split; [exact Hr|]. simpl. split_and!; auto.
    rewrite Ht1, Ht0, <- app_assoc. reflexivity.
  - rewrite Hgeo in Ht1. simpl in Ht1.
    destruct (check_paced lat lon w1) as (ev2 & Ht2 & _).
    rewrite Hchk in Ht2. simpl in Ht2.
    eexists _, wi, (Some (lat, lon)), w1, (ev0 ++ ev1), (ev2 ++ ev3).
    split; [exact Hr|]. simpl. split_and!; auto.
    + rewrite Ht1, Ht0, <- app_assoc. reflexivity.
    + rewrite Ht3, Ht2, <- app_assoc. reflexivity.
    + destruct on_tribal; auto.
Qed.


(** C6 (amended). The turn of a row whose address cell is missing
    writes 'No Data', leaves the coordinates unset, calls nothing and
    cannot fail: the checker and the trace are as before. In every frame
    the loop returns there is one row per row of the sheet, the row of a
    missing cell is that 'No Data' row, and the row of a cell that holds a
    value (whitespace only or not) is not labelled 'No Data': the value
    was handed to the resolver, in the state the rows before it had left,
    the events of that call are in the trace the loop leaves, and the row
    carries 'Could Not Geocode' exactly when the resolver returned
    nothing. A sheet of missing cells only always comes back, at no
    cost. *)
Theorem missing_cell_is_no_data :
  (forall idx df w,
     Raw.process_row E point_builds formats idx Missing df w
     = (inr (alter (set_On_Tribal_Land "No Data") idx df), w))
  /\ (forall sheet w df w',
        batch (Raw.Cells sheet) w = (inr df, w') ->
        length df = length sheet
        /\ forall i,
             (sheet !! i = Some Missing ->
              df !! i = Some {| address_cell := Missing; Latitude := None;
                                Longitude := None; On_Tribal_Land := Some "No Data" |})
             /\ (forall v, sheet !! i = Some (Value v) ->
                   exists r wi coords w1 before after,
                     df !! i = Some r
                     /\ On_Tribal_Land r <> Some "No Data"
                     /\ run w (take i sheet) (take i df) wi
                     /\ geocode_address E v wi = (Return coords, w1)
                     /\ trace w1 = trace w ++ before
                     /\ trace w' = trace w1 ++ after
                     /\ (coords = None <-> On_Tribal_Land r = Some "Could Not Geocode")))
  /\ (forall sheet w,
        Forall (fun c => c = Missing) sheet ->
        batch (Raw.Cells sheet) w
        = (inr (map (fun c => set_On_Tribal_Land "No Data" (blank_row c)) sheet), w)).
Proof.
  split_and!.
  - reflexivity.
  - intros sheet w df w' Hrun.
    pose proof (raw_process_excel_run E point_builds formats sheet w) as H.
    rewrite Hrun in H.
    destruct (raw_run_classified E point_builds formats _ _ _ _ H) as (_ & _ & Hlen).
    split; [exact Hlen|]. intros i. split.
    + intros Hi.
      destruct (raw_run_lookup E point_builds formats _ _ _ _ H i _ Hi)
        as (r & wi & wi' & Hr & _ & Hturn).
      inversion Hturn; subst. exact Hr.
    + intros v Hi.
      destruct (raw_run_resolved _ _ _ _ H i v Hi)
        as (r & wi & coords & w1 & before & after & Hr & Hpre & Hgeo & Hb & Ha & _ & Hrow).
      exists r, wi, coords, w1, before, after. split_and!; auto.
      * destruct coords as [[lat lon]|].
        -- destruct Hrow as (_ & _ & _ & _ & [Hl|Hl]); rewrite Hl; discriminate.
        -- destruct Hrow as (_ & _ & Hl). rewrite Hl. discriminate.
      * destruct coords as [[lat lon]|].
        -- destruct Hrow as (_ & _ & _ & _ & [Hl|Hl]); rewrite Hl;
             split; intros; discriminate.
        -- destruct Hrow as (_ & _ & Hl). split; auto.
  - intros sheet w Hall.
    pose proof (raw_process_excel_run E point_builds formats sheet w) as H.
    destruct (batch (Raw.Cells sheet) w) as [[e|df] w'].
    + exfalso. eapply raw_all_missing_no_stops; eassumption.
    + destruct (raw_all_missing_run _ _ _ _ H Hall) as [-> ->]. reflexivity.
Qed.

End Batches.

(* ===================================================================== *)
(** ** Concrete runs of the row loop *)
(* ===================================================================== *)

Section RawRuns.
Import Strip Checker Driver Scenario RawCases.
Open Scope Z_scope.

Abbreviation words := (@PyStr Z) (only parsing).
Abbreviation two_rows := [Missing; Value (words "12 Elm St")] (only parsing).




(** C6 fails as stated: a cell of three spaces is not missing; the
    resolver is called with it, both services are asked for the empty
    address, and the row is labelled 'Could Not Geocode'. *)
Lemma whitespace_cell_reaches_resolver :
  fst (Raw.process_excel nothing_found both_numbers is_number
         (Raw.Cells [Value (words "   ")]) raw_loaded)
  = inr [{| address_cell := Value (words "   "); Latitude := None; Longitude := None;
            On_Tribal_Land := Some "Could Not Geocode" |}]
  /\ trace (snd (Raw.process_excel nothing_found both_numbers is_number
                   (Raw.Cells [Value (words "   ")]) raw_loaded))
     = [GetNominatim ""; GetCensus ""].
Proof. split; reflexivity. Qed.

(** C6 (amended), on a missing cell followed by a cell of three spaces. *)
Lemma missing_cell_is_no_data_witness :
  exists df w',
    Raw.process_excel nothing_found both_numbers is_number
      (Raw.Cells [Missing; Value (words "   ")]) raw_loaded = (inr df, w')
    /\ length df = 2%nat
    /\ df !! 0%nat = Some {| address_cell := Missing; Latitude := None;
                            Longitude := None; On_Tribal_Land := Some "No Data" |}
    /\ exists r, df !! 1%nat = Some r /\ On_Tribal_Land r <> Some "No Data".
Proof.
  destruct (Raw.process_excel nothing_found both_numbers is_number
              (Raw.Cells [Missing; Value (words "   ")]) raw_loaded)
    as [[e|df] w'] eqn:Hrun.
  - exfalso. vm_compute in Hrun. discriminate Hrun.
  - exists df, w'. split; [reflexivity|].
    destruct (proj1 (proj2 (missing_cell_is_no_data nothing_found both_numbers is_number))
                _ _ _ _ Hrun) as [Hlen Hrows].
    split; [exact Hlen|]. split; [exact (proj1 (Hrows 0%nat) eq_refl)|].
    destruct (proj2 (Hrows 1%nat) _ eq_refl) as (r & _ & _ & _ & _ & _ & Hr & Hlabel & _).
    exists r. split; assumption.
Defined.

(** X8, with the archive unreadable. *)
Lemma classifier_raises_witness :
  Raw.check_tribal_land no_archive both_numbers (Number 35) (Number (-110))
    fresh
  = (inl (Raw.Propagated ReadError), emit (ReadFile tiger_url) fresh)
  /\ forall lat lon,
       trace (snd (Raw.check_tribal_land no_archive both_numbers lat lon
                     (emit (ReadFile tiger_url) fresh)))
       = [ReadFile tiger_url; ReadFile tiger_url].
Proof.
  assert (Hrun : Raw.check_tribal_land no_archive both_numbers (Number 35) (Number (-110))
                   fresh
                 = (inl (Raw.Propagated ReadError),
                    emit (ReadFile tiger_url) fresh))
    by reflexivity.
  split; [exact Hrun|].
  destruct (classifier_raises_in_three_ways no_archive both_numbers _ _ _ _ _ Hrun)
    as [_ [(_ & _ & _ & _ & _ & Hagain)|[(He & _)|(He & _)]]];
    [exact Hagain | discriminate He | discriminate He].
Defined.

(** X8, a boundary row without a geometry. *)
Example classifier_meets_null_geometry :
  Raw.check_tribal_land steady both_numbers (Number 35) (Number (-110)) hollow_loaded
  = (inl Raw.NoGeometry, hollow_loaded).
Proof. reflexivity. Qed.

(** X13: the loop aborted at the row of a resolved address, by the
    classifier coming to a row without a geometry. *)
Lemma batch_aborts_witness :
  exists w',
    Raw.process_excel steady both_numbers is_number (Raw.Cells two_rows) hollow_loaded
    = (inl Raw.NoGeometry, w')
    /\ exists i a rows wi lat lon w1,
         two_rows !! i = Some (Value a)
         /\ Raw.run steady both_numbers is_number hollow_loaded (take i two_rows) rows wi
         /\ geocode_address steady a wi = (Return (Some (lat, lon)), w1)
         /\ Raw.check_tribal_land steady both_numbers lat lon w1 = (inl Raw.NoGeometry, w').
Proof.
  destruct (Raw.process_excel steady both_numbers is_number (Raw.Cells two_rows) hollow_loaded)
    as [[e|df] w'] eqn:Hrun.
  - assert (He : e = Raw.NoGeometry).
    { pose proof Hrun as H. vm_compute in H. injection H as H _. symmetry. exact H. }
    subst e. exists w'. split; [reflexivity|].
    destruct (batch_aborts_after_a_resolved_address steady both_numbers is_number _ _ _ _ Hrun)
      as [(He & _)|(sheet & i & a & rows & wi & lat & lon & w1 & Hf & Hi & Hpre & Hgeo & Hend)].
    + discriminate He.
    + injection Hf as <-. exists i, a, rows, wi, lat, lon, w1.
      destruct Hend as [Hchk|(He & _)]; [|discriminate He].
      split_and!; assumption.
  - exfalso. vm_compute in Hrun. discriminate Hrun.
Defined.

(** X13: a fallback answer with a null latitude aborts the loop too,
    whether [Point] refuses the null (line 187) or takes it, the format of
    the log line (line 268) then refusing it. *)
Example batch_aborts_on_null_latitude :
  fst (Raw.process_excel null_latitude both_numbers is_number
         (Raw.Cells [Value (words "12 Elm St")]) raw_loaded)
  = inl Raw.BadPoint
  /\ fst (Raw.process_excel null_latitude (fun _ _ => true) is_number
            (Raw.Cells [Value (words "12 Elm St")]) raw_loaded)
     = inl Raw.BadFormat.
Proof. split; reflexivity. Qed.

(** A pause that does not come right after a request to the primary
    service is not [paced]. *)
Example late_pause_not_paced a b :
  ~ Raw.paced [GetNominatim a; GetNominatim b; GetCensus b; Sleep 1].
Proof.
  intros H. inversion H as [|q l H1| | |]; subst.
  inversion H1 as [|q l H2|q l H2| |]; subst.
  - inversion H2.
  - inversion H2.
Qed.

(** X14: the events of the two rows, nothing loaded before. *)
Lemma batch_events_paced_witness :
  exists events,
    trace (snd (Raw.process_excel steady both_numbers is_number (Raw.Cells two_rows)
                  fresh))
    = events
    /\ Raw.paced events
    /\ events = [GetNominatim "12 Elm St"; Sleep 1; ReadFile tiger_url].
Proof.
  destruct (batch_events_paced steady both_numbers is_number (Raw.Cells two_rows)
              fresh) as (events & Htrace & Hpaced & _).
  exists events. split_and!; [exact Htrace | exact Hpaced |].
  pose proof Htrace as H. vm_compute in H. symmetry. exact H.
Defined.

(** X16: one missing cell, one address. *)
Lemma summary_counts_witness :
  exists df w',
    Raw.process_excel steady both_numbers is_number (Raw.Cells two_rows)
      fresh = (inr df, w')
    /\ length df = 2%nat
    /\ count_label "No Data" df = 1%nat
    /\ (count_label "Yes" df + count_label "No" df + count_label "Could Not Geocode" df
        = 1)%nat.
Proof.
  destruct (Raw.process_excel steady both_numbers is_number (Raw.Cells two_rows)
              fresh) as [[e|df] w'] eqn:Hrun.
  - exfalso. vm_compute in Hrun. discriminate Hrun.
  - exists df, w'. split; [reflexivity|].
    destruct (summary_counts_rows_with_address steady both_numbers is_number _ _ _ _ Hrun)
      as (Hlen & Hmissing & Hrest & _).
    split_and!; assumption.
Defined.

(** X17: an address inside the test reservation, the boundaries loaded. *)
Lemma labels_follow_the_boundaries_witness :
  exists df w',
    Raw.process_excel steady both_numbers is_number (Raw.Cells two_rows) raw_loaded
    = (inr df, w')
    /\ tribal_boundaries w' = Some raw_store
    /\ Raw.within_any steady raw_store (Number 35) (Number (-110)) = true
    /\ Forall (fun r =>
         Latitude r = Some (Number 35) -> Longitude r = Some (Number (-110)) ->
         On_Tribal_Land r = Some "Yes") df.
Proof.
  destruct (Raw.process_excel steady both_numbers is_number (Raw.Cells two_rows) raw_loaded)
    as [[e|df] w'] eqn:Hrun.
  - exfalso. vm_compute in Hrun. discriminate Hrun.
  - exists df, w'. split; [reflexivity|].
    destruct (labels_follow_the_boundaries steady both_numbers is_number
                two_rows raw_loaded raw_store df w' eq_refl Hrun) as (Hstore & _ & Hrows).
    split; [exact Hstore|]. split; [reflexivity|].
    eapply List.Forall_impl; [|exact Hrows].
    intros r [Hyes _] Hlat Hlon. exact (Hyes _ _ Hlat Hlon).
Defined.

End RawRuns.
